(** * Development servers of the NewLand front end

    A shallow embedding of [spa-server.py] (the single-page-application
    server) and [debug_server.py] (the debug file server), and the properties
    of their request handling, logging, MIME overrides, port selection and
    command-line handling.

    Both programs subclass Python's [http.server.SimpleHTTPRequestHandler].
    The repository code is embedded definition by definition; the inherited
    methods it calls ([parse_request], [send_response], [send_header],
    [send_error], [send_head], the method dispatch) are embedded from
    CPython's [http/server.py]; pure library functions whose internals do not matter
    ([urlparse], [translate_path], [mimetypes], [int], the clock) are fields
    of the class [PyLib]. *)

From Stdlib Require Import ZArith List String Ascii Bool Lia.
From Stdlib Require Import Numbers.DecimalString.
Import ListNotations.
Open Scope string_scope.
Open Scope Z_scope.

(** ** Python [str] operations used by the sources *)

Module Str.

(** [s.endswith(suffix)] *)
Fixpoint endswith (s suffix : string) : bool :=
  if String.eqb s suffix then true
  else match s with
       | EmptyString => false
       | String _ s' => endswith s' suffix
       end.

(** [needle in hay] *)
Fixpoint str_in (needle hay : string) : bool :=
  if String.prefix needle hay then true
  else match hay with
       | EmptyString => false
       | String _ hay' => str_in needle hay'
       end.

(** [os.path.basename(p)]: what follows the last ['/'] of [p]. *)
Fixpoint basename (p : string) : string :=
  match p with
  | EmptyString => EmptyString
  | String c rest =>
      if str_in "/" rest then basename rest
      else if Ascii.eqb c "/"%char then rest
      else p
  end.

(** [os.path.join(a, b)] on POSIX, for two components. *)
Definition os_path_join (a b : string) : string :=
  if String.prefix "/" b then b
  else if String.eqb a EmptyString || endswith a "/" then a ++ b
  else a ++ "/" ++ b.

(** [str(n)] for an integer. *)
Definition str (n : Z) : string := NilZero.string_of_int (Z.to_int n).

(** [s.split(c, 1)]: the parts before and after the first [c]. *)
Fixpoint split1 (c : ascii) (s : string) : string * string :=
  match s with
  | EmptyString => (EmptyString, EmptyString)
  | String a s' =>
      if Ascii.eqb a c then (EmptyString, s')
      else let (l, r) := split1 c s' in (String a l, r)
  end.

(** [c.isspace()] for a character of a request line (decoded as
    ISO-8859-1): tab to carriage return, the four separators, the space,
    NEL and the no-break space. *)
Definition isspace (c : ascii) : bool :=
  let n := Ascii.nat_of_ascii c in
  ((9 <=? n) && (n <=? 13) || (28 <=? n) && (n <=? 32)
   || (n =? 133) || (n =? 160))%nat.

(** The loop of [s.split()]; [word] is the word being read. *)
Fixpoint split_words (s word : string) : list string :=
  match s with
  | EmptyString =>
      match word with
      | EmptyString => []
      | _ => [word]
      end
  | String c s' =>
      if isspace c then
        match word with
        | EmptyString => split_words s' EmptyString
        | _ => word :: split_words s' EmptyString
        end
      else split_words s' (word ++ String c EmptyString)
  end.

(** [s.split()]: the words of [s] between runs of white space. *)
Definition split (s : string) : list string := split_words s EmptyString.

(** [s.rstrip(chars)] *)
Fixpoint rstrip (chars s : string) : string :=
  match s with
  | EmptyString => EmptyString
  | String c s' =>
      match rstrip chars s' with
      | EmptyString =>
          if str_in (String c EmptyString) chars then EmptyString
          else String c EmptyString
      | t => String c t
      end
  end.

(** [s.lstrip(chars)] *)
Fixpoint lstrip (chars s : string) : string :=
  match s with
  | EmptyString => EmptyString
  | String c s' => if str_in (String c EmptyString) chars then lstrip chars s' else s
  end.

(** The null character. *)
Definition nul : string := String (Ascii.ascii_of_nat 0) EmptyString.

(** Carriage return and line feed. *)
Definition crlf : string :=
  String (Ascii.ascii_of_nat 13) (String (Ascii.ascii_of_nat 10) EmptyString).

End Str.

Import Str.

(** ** Exceptions *)

Inductive Exn := ValueError | OverflowError | OSError.

(** What a call gives: a value, or an exception it raises. *)
Inductive Result (A : Type) :=
| Ok (a : A)
| Raised (e : Exn).
Arguments Ok {A} a.
Arguments Raised {A} e.

(** ** The environment: library, file system, request *)

(** [urllib.parse.urlparse] and [urlsplit] results. *)
Record ParseResult := mkParseResult {
  pr_scheme : string; pr_netloc : string; pr_path : string;
  pr_params : string; pr_query : string; pr_fragment : string }.

Record SplitResult := mkSplitResult {
  sr_scheme : string; sr_netloc : string; sr_path : string;
  sr_query : string; sr_fragment : string }.

(** The Python standard library functions the two programs (and the handler
    base classes) call, and the clock.  [py_int s = None] stands for
    [int(s)] raising [ValueError].  [path_error p] says that the operating
    system interface refuses the name [p] with a [ValueError] before any
    look-up: it has an embedded null character, or a character that the file
    system encoding cannot encode.  [urlparse] and [urlsplit] are the
    functions on the request targets they accept; they raise [ValueError]
    on a malformed authority, which a target that starts with one slash
    does not have.  [directory] is the directory the server runs in, whose
    name the operating system gave, so that the name of its [index.html] is
    not refused.  The four laws are the only facts about these functions
    that the development relies on. *)
Class PyLib := {
  urlparse : string -> ParseResult;
  urlsplit : string -> SplitResult;
  urlunsplit : SplitResult -> string;
  directory : string;
  translate_path : string -> string;
  mimetypes_guess_type : string -> string;
  version_string : string;
  date_time_string : option Z -> string;
  responses : Z -> option (string * string);
  error_message_format : Z -> string -> string -> list Byte.byte;
  error_content_type : string;
  listing_page : list string -> string -> list Byte.byte;
  getfilesystemencoding : string;
  py_repr : string -> string;
  py_int : string -> option Z;
  strftime_now : string;
  path_error : string -> bool;
  urlparse_root : pr_path (urlparse "/") = "/";
  translate_path_index :
    translate_path "/index.html" = os_path_join directory "index.html";
  path_error_null : forall p, str_in nul p = true -> path_error p = true;
  path_error_index : path_error (os_path_join directory "index.html") = false
}.

(** The file system as [os.path] and [open] observe it.  [entries = None] is
    a directory that [os.listdir] may not read.  A file system has no node
    under a name that [path_error] refuses, so the tests of [os.path], which
    catch the [ValueError], are false for such a name. *)
Inductive Node :=
| RegularFile (data : list Byte.byte) (st_mtime : Z)
| Directory (entries : option (list string)).

Definition FileSystem := string -> option Node.

Module os_path.

Definition exists_ (fs : FileSystem) (p : string) : bool :=
  match fs p with Some _ => true | None => false end.

Definition isdir (fs : FileSystem) (p : string) : bool :=
  match fs p with Some (Directory _) => true | _ => false end.

Definition isfile (fs : FileSystem) (p : string) : bool :=
  match fs p with Some (RegularFile _ _) => true | _ => false end.

End os_path.

(** [open(path, 'rb')] followed by [os.fstat]: the contents and the
    modification time; [OSError] for a directory or a missing file,
    [ValueError] for a name that [path_error] refuses. *)
Definition open_rb `{PyLib} (fs : FileSystem) (p : string)
  : Result (list Byte.byte * Z) :=
  match fs p with
  | Some (RegularFile data mtime) => Ok (data, mtime)
  | Some (Directory _) => Raised OSError
  | None => if path_error p then Raised ValueError else Raised OSError
  end.

(** The attributes [parse_request] sets from the request line and the
    headers, as the [do_] methods and [send_error] read them.
    [request_target] is the initial [self.path].  [if_modified_since] is the
    time (UTC seconds) of a well-formed [If-Modified-Since] header of a
    request without [If-None-Match], and [None] otherwise.  While
    [self.command] is still [None] (an error on the request line), [command]
    is the empty string: the code only compares it with ['HEAD']. *)
Record Request := mkRequest {
  command : string;
  request_target : string;
  requestline : string;
  client_address : string;
  if_modified_since : option Z }.

(** What [http.client.parse_headers] makes of the header lines. *)
Inductive Headers :=
| HeadersRead (if_modified_since : option Z)
| LineTooLong (err : string)
| TooManyHeaders (err : string).

(** One request on the wire: the line [rfile.readline(65537)] returns
    (decoded as ISO-8859-1), the header lines after it, and the address of
    the client. *)
Record Connection := mkConnection {
  raw_requestline : string;
  headers : Headers;
  peer : string }.

(** ** The handler object *)

Inductive Line :=
| StatusLine (version : string) (code : Z) (message : string)
| HeaderLine (keyword value : string)
| BlankLine.

Inductive Written :=
| HeaderBlock (lines : list Line)
| Payload (data : list Byte.byte).

(** The mutable attributes of a handler instance, and what it has printed. *)
Record Self := mkSelf {
  path : string;
  _headers_buffer : list Line;
  wfile : list Written;
  stdout : list string }.

(** Handler code: it runs on the handler object, reads
    [self.request_version] (set by [parse_request] before any of it runs and
    not changed afterwards), and returns or raises. *)
Definition M (A : Type) : Type := Self -> string -> Result A * Self.

Definition ret {A} (a : A) : M A := fun self _ => (Ok a, self).

Definition bind {A B} (m : M A) (k : A -> M B) : M B :=
  fun self request_version =>
    match m self request_version with
    | (Ok a, self') => k a self' request_version
    | (Raised e, self') => (Raised e, self')
    end.

(** [raise e] *)
Definition throw {A} (e : Exn) : M A := fun self _ => (Raised e, self).

(** [self.request_version] *)
Definition get_request_version : M string :=
  fun self request_version => (Ok request_version, self).

Declare Scope handler_scope.
Delimit Scope handler_scope with handler.
Notation "x <- m ;; k" := (bind m (fun x => k))
  (at level 61, m at next level, right associativity) : handler_scope.
Notation "m ;; k" := (bind m (fun _ => k))
  (at level 61, right associativity) : handler_scope.
Open Scope handler_scope.

Definition get_path : M string := fun self _ => (Ok (path self), self).

Definition set_path (p : string) : M unit := fun self _ =>
  (Ok tt, mkSelf p (_headers_buffer self) (wfile self) (stdout self)).

Definition buffer_append (l : Line) : M unit := fun self _ =>
  (Ok tt,
   mkSelf (path self) (_headers_buffer self ++ [l]) (wfile self) (stdout self)).

Definition wfile_write (w : Written) : M unit := fun self _ =>
  (Ok tt,
   mkSelf (path self) (_headers_buffer self) (wfile self ++ [w]) (stdout self)).

Definition print (line : string) : M unit := fun self _ =>
  (Ok tt,
   mkSelf (path self) (_headers_buffer self) (wfile self) (stdout self ++ [line])).

(** The methods a handler class may override; the base classes call them
    through [self]. *)
Record HandlerClass := mkHandlerClass {
  self_end_headers : M unit;
  self_guess_type : string -> string;
  self_log_message : Request -> string -> M unit }.

Definition new_handler (req : Request) : Self :=
  mkSelf (request_target req) [] [] [].

(** [self.request_version] while a request is handled that [parse_request]
    accepted with a version other than [HTTP/0.9].  The handler code
    compares the attribute with ['HTTP/0.9'] and does nothing else with it,
    so that one value stands for all of them. *)
Definition accepted_version : string := "HTTP/1.1".

(** ** [http.server.BaseHTTPRequestHandler] *)

Module BaseHTTPRequestHandler.
Section Methods.
Context `{PyLib}.
Variable cls : HandlerClass.
Variable req : Request.

Definition protocol_version : string := "HTTP/1.0".

Definition dquote : string := String (Ascii.ascii_of_nat 34) EmptyString.

Definition default_request_version : string := "HTTP/0.9".

Definition send_header (keyword value : string) : M unit :=
  request_version <- get_request_version ;;
  if negb (String.eqb request_version "HTTP/0.9") then
    buffer_append (HeaderLine keyword value)
  else ret tt.

Definition flush_headers : M unit := fun self _ =>
  (Ok tt,
   mkSelf (path self) [] (wfile self ++ [HeaderBlock (_headers_buffer self)])
     (stdout self)).

Definition end_headers : M unit :=
  request_version <- get_request_version ;;
  if negb (String.eqb request_version "HTTP/0.9") then
    buffer_append BlankLine ;; flush_headers
  else ret tt.

(** [self.log_message('"%s" %s %s', self.requestline, str(code), '-')] *)
Definition log_request (code : Z) : M unit :=
  self_log_message cls req
    (dquote ++ requestline req ++ dquote ++ " " ++ str code ++ " " ++ "-").

(** [self.log_error("code %d, message %s", code, message)] *)
Definition log_error_code (code : Z) (message : string) : M unit :=
  self_log_message cls req ("code " ++ str code ++ ", message " ++ message).

Definition send_response_only (code : Z) (message : option string) : M unit :=
  request_version <- get_request_version ;;
  if negb (String.eqb request_version "HTTP/0.9") then
    let message :=
      match message with
      | Some m => m
      | None => match responses code with
                | Some (shortmsg, _) => shortmsg
                | None => EmptyString
                end
      end in
    buffer_append (StatusLine protocol_version code message)
  else ret tt.

Definition send_response (code : Z) (message : option string) : M unit :=
  log_request code ;;
  send_response_only code message ;;
  send_header "Server" version_string ;;
  send_header "Date" (date_time_string None).

Definition has_body (code : Z) : bool :=
  (200 <=? code) && negb ((code =? 204) || (code =? 205) || (code =? 304)).

Definition send_error (code : Z) (message explain : option string) : M unit :=
  let '(shortmsg, longmsg) :=
    match responses code with Some p => p | None => ("???", "???") end in
  let message := match message with Some m => m | None => shortmsg end in
  let explain := match explain with Some e => e | None => longmsg end in
  log_error_code code message ;;
  send_response code (Some message) ;;
  send_header "Connection" "close" ;;
  let body :=
    if has_body code then Some (error_message_format code message explain)
    else None in
  match body with
  | Some b =>
      send_header "Content-Type" error_content_type ;;
      send_header "Content-Length" (str (Z.of_nat (List.length b)))
  | None => ret tt
  end ;;
  self_end_headers cls ;;
  match body with
  | Some ((_ :: _) as b) =>
      if negb (String.eqb (command req) "HEAD") then wfile_write (Payload b)
      else ret tt
  | _ => ret tt
  end.

(** The end of [handle_one_request], after [parse_request] has returned
    true: the call of [do_<command>], for a class whose [do_] methods are
    [methods]. *)
Definition dispatch (methods : string -> option (M unit)) : M unit :=
  match methods (command req) with
  | None =>
      send_error 501
        (Some ("Unsupported method (" ++ py_repr (command req) ++ ")")) None
  | Some method => method
  end.

End Methods.

(** What [parse_request] decides: it returns true, with the attributes set;
    it sends an error and returns false; or it returns false at once.
    [request_version] is the attribute as it stands when the answer is
    written. *)
Inductive Parsed :=
| Accept (request_version : string) (req : Request)
| Reject (request_version : string) (req : Request)
    (code : Z) (message : string) (explain : option string)
| Ignore.

Section Parsing.
Context `{PyLib}.

(** The version check of [parse_request] on the last word of the request
    line: [base_version_number] and [version_number], or [None] where the
    code raises [ValueError]. *)
Definition parse_version (version : string) : option (string * (Z * Z)) :=
  if negb (String.prefix "HTTP/" version) then None
  else
    let base_version_number := snd (split1 "/" version) in
    if negb (str_in "." base_version_number) then None
    else
      let (major, minor) := split1 "." base_version_number in
      if str_in "." minor then None
      else
        match py_int major, py_int minor with
        | Some a, Some b => Some (base_version_number, (a, b))
        | _, _ => None
        end.

(** [version_number >= (2, 0)] *)
Definition at_least_2_0 (version_number : Z * Z) : bool :=
  let (major, minor) := version_number in
  (2 <? major) || ((major =? 2) && (0 <=? minor)).

(** [parse_request].  [protocol_version] is [HTTP/1.0] in both servers, so
    an [Expect: 100-continue] header is not answered. *)
Definition parse_request (conn : Connection) : Parsed :=
  let requestline := rstrip crlf (raw_requestline conn) in
  let unparsed := mkRequest EmptyString EmptyString requestline (peer conn) None in
  let words := split requestline in
  match words with
  | [] => Ignore
  | _ =>
      let checked :=
        if (3 <=? List.length words)%nat then
          let version := List.last words EmptyString in
          match parse_version version with
          | None =>
              inl (Reject default_request_version unparsed 400
                     ("Bad request version (" ++ py_repr version ++ ")") None)
          | Some (base_version_number, version_number) =>
              if at_least_2_0 version_number then
                inl (Reject default_request_version unparsed 505
                       ("Invalid HTTP version (" ++ base_version_number ++ ")") None)
              else inr version
          end
        else inr default_request_version in
      match checked with
      | inl rejected => rejected
      | inr request_version =>
          match words with
          | command :: path :: rest =>
              if (1 <? List.length rest)%nat then
                Reject request_version unparsed 400
                  ("Bad request syntax (" ++ py_repr requestline ++ ")") None
              else if (List.length rest =? 0)%nat && negb (String.eqb command "GET") then
                Reject request_version unparsed 400
                  ("Bad HTTP/0.9 request type (" ++ py_repr command ++ ")") None
              else
                let path :=
                  if String.prefix "//" path then "/" ++ lstrip "/" path else path in
                match headers conn with
                | LineTooLong err =>
                    Reject request_version
                      (mkRequest command path requestline (peer conn) None)
                      431 "Line too long" (Some err)
                | TooManyHeaders err =>
                    Reject request_version
                      (mkRequest command path requestline (peer conn) None)
                      431 "Too many headers" (Some err)
                | HeadersRead ims =>
                    Accept request_version
                      (mkRequest command path requestline (peer conn) ims)
                end
          | _ =>
              Reject request_version unparsed 400
                ("Bad request syntax (" ++ py_repr requestline ++ ")") None
          end
      end
  end.

(** [self.request_version] when the answer to [conn], if any, is written. *)
Definition request_version_of (conn : Connection) : string :=
  if 65536 <? Z.of_nat (String.length (raw_requestline conn)) then EmptyString
  else
    match parse_request conn with
    | Accept request_version _ => request_version
    | Reject request_version _ _ _ _ => request_version
    | Ignore => default_request_version
    end.

(** [handle_one_request], for a class whose [do_] methods are [methods],
    from a fresh handler instance. *)
Definition handle_one_request (cls : HandlerClass)
    (methods : Request -> string -> option (M unit)) (conn : Connection)
  : Result unit * Self :=
  if 65536 <? Z.of_nat (String.length (raw_requestline conn)) then
    let req := mkRequest EmptyString EmptyString EmptyString (peer conn) None in
    send_error cls req 414 None None (new_handler req) EmptyString
  else
    match raw_requestline conn with
    | EmptyString => (Ok tt, mkSelf EmptyString [] [] [])
    | _ =>
        match parse_request conn with
        | Ignore => (Ok tt, mkSelf EmptyString [] [] [])
        | Reject request_version req code message explain =>
            send_error cls req code (Some message) explain (new_handler req)
              request_version
        | Accept request_version req =>
            dispatch cls req (methods req) (new_handler req) request_version
        end
    end.

End Parsing.
End BaseHTTPRequestHandler.

(** ** [http.server.SimpleHTTPRequestHandler] *)

Module SimpleHTTPRequestHandler.
Import BaseHTTPRequestHandler.
Section Methods.
Context `{PyLib}.
Variable cls : HandlerClass.
Variable fs : FileSystem.
Variable req : Request.

(** The default [guess_type]. *)
Definition guess_type (p : string) : string := mimetypes_guess_type p.

Definition list_directory (p : string) : M (option (list Byte.byte)) :=
  match fs p with
  | Some (Directory (Some list)) =>
      self_path <- get_path ;;
      let encoded := listing_page list self_path in
      send_response cls req 200 None ;;
      send_header "Content-type" ("text/html; charset=" ++ getfilesystemencoding) ;;
      send_header "Content-Length" (str (Z.of_nat (List.length encoded))) ;;
      self_end_headers cls ;;
      ret (Some encoded)
  | _ =>
      send_error cls req 404 (Some "No permission to list directory") None ;;
      ret None
  end.

(** The test of the conditional-request branch: a usable
    [If-Modified-Since] that is not earlier than the file's modification
    time. *)
Definition not_modified (st_mtime : Z) : bool :=
  match if_modified_since req with
  | Some ims => st_mtime <=? ims
  | None => false
  end.

(** [send_head] from [ctype = self.guess_type(path)] on. *)
Definition send_head_file (p : string) : M (option (list Byte.byte)) :=
  let ctype := self_guess_type cls p in
  if endswith p "/" then
    send_error cls req 404 (Some "File not found") None ;; ret None
  else
    match open_rb fs p with
    | Raised OSError =>
        send_error cls req 404 (Some "File not found") None ;; ret None
    | Raised e => throw e
    | Ok (f, st_mtime) =>
        if not_modified st_mtime then
          send_response cls req 304 None ;;
          self_end_headers cls ;;
          ret None
        else
          send_response cls req 200 None ;;
          send_header "Content-type" ctype ;;
          send_header "Content-Length" (str (Z.of_nat (List.length f))) ;;
          send_header "Last-Modified" (date_time_string (Some st_mtime)) ;;
          self_end_headers cls ;;
          ret (Some f)
    end.

Definition send_head : M (option (list Byte.byte)) :=
  self_path <- get_path ;;
  let p := translate_path self_path in
  if os_path.isdir fs p then
    let parts := urlsplit self_path in
    if negb (endswith (sr_path parts) "/") then
      send_response cls req 301 None ;;
      let new_parts :=
        mkSplitResult (sr_scheme parts) (sr_netloc parts) (sr_path parts ++ "/")
          (sr_query parts) (sr_fragment parts) in
      send_header "Location" (urlunsplit new_parts) ;;
      send_header "Content-Length" "0" ;;
      self_end_headers cls ;;
      ret None
    else if os_path.isfile fs (os_path_join p "index.html") then
      send_head_file (os_path_join p "index.html")
    else if os_path.isfile fs (os_path_join p "index.htm") then
      send_head_file (os_path_join p "index.htm")
    else list_directory p
  else send_head_file p.

Definition do_GET : M unit :=
  f <- send_head ;;
  match f with
  | Some data => wfile_write (Payload data)
  | None => ret tt
  end.

Definition do_HEAD : M unit :=
  f <- send_head ;; ret tt.

End Methods.
End SimpleHTTPRequestHandler.

(** ** [spa-server.py]: [SPAHandler] *)

Module SPAHandler.
Import BaseHTTPRequestHandler.

Inductive Route := RootIndex | StaticAsset | SpaFallback | PassThrough.

Section Methods.
Context `{PyLib}.

Definition end_headers : M unit :=
  send_header "Access-Control-Allow-Origin" "*" ;;
  send_header "Access-Control-Allow-Methods" "GET, POST, OPTIONS" ;;
  send_header "Access-Control-Allow-Headers" "Content-Type" ;;
  BaseHTTPRequestHandler.end_headers.

Definition log_message (req : Request) (message : string) : M unit :=
  print ("🌐 " ++ client_address req ++ " - " ++ message).

Definition class : HandlerClass :=
  mkHandlerClass end_headers SimpleHTTPRequestHandler.guess_type log_message.

Definition super_do_GET (fs : FileSystem) (req : Request) : M unit :=
  SimpleHTTPRequestHandler.do_GET class fs req.

Definition do_GET (fs : FileSystem) (req : Request) : M unit :=
  self_path <- get_path ;;
  let parsed_path := urlparse self_path in
  let path := pr_path parsed_path in
  if String.eqb path "/" then
    set_path "/index.html" ;;
    super_do_GET fs req
  else
    let file_path := translate_path path in
    if str_in "." (basename path) then
      super_do_GET fs req
    else if negb (os_path.exists_ fs file_path) then
      set_path "/index.html" ;;
      super_do_GET fs req
    else
      super_do_GET fs req.

(** The branch [do_GET] takes for a given [self.path], in the order of its
    tests, and the [self.path] it hands to the inherited [do_GET]. *)
Definition route (fs : FileSystem) (self_path : string) : Route :=
  let path := pr_path (urlparse self_path) in
  if String.eqb path "/" then RootIndex
  else if str_in "." (basename path) then StaticAsset
  else if negb (os_path.exists_ fs (translate_path path)) then SpaFallback
  else PassThrough.

Definition served_path (self_path : string) (r : Route) : string :=
  match r with
  | RootIndex | SpaFallback => "/index.html"
  | StaticAsset | PassThrough => self_path
  end.

(** The [do_] methods of the class: [do_GET] here, [do_HEAD] inherited. *)
Definition methods (fs : FileSystem) (req : Request) (name : string)
  : option (M unit) :=
  if String.eqb name "GET" then Some (do_GET fs req)
  else if String.eqb name "HEAD" then
    Some (SimpleHTTPRequestHandler.do_HEAD class fs req)
  else None.

(** One accepted request, handled from a fresh handler instance. *)
Definition handle (fs : FileSystem) (req : Request) : Self :=
  snd (dispatch class req (methods fs req) (new_handler req) accepted_version).

(** One request on the wire. *)
Definition handle_one_request (fs : FileSystem) (conn : Connection) : Self :=
  snd (BaseHTTPRequestHandler.handle_one_request class (methods fs) conn).

End Methods.
End SPAHandler.

(** ** [debug_server.py]: [DebugHTTPRequestHandler] *)

Module DebugHTTPRequestHandler.
Import BaseHTTPRequestHandler.

Definition esc : string := String (Ascii.ascii_of_nat 27) EmptyString.
Definition green : string := esc ++ "[92m".
Definition red : string := esc ++ "[91m".
Definition yellow : string := esc ++ "[93m".
Definition blue : string := esc ++ "[94m".
Definition reset_color : string := esc ++ "[0m".

(** The colour chosen in [log_message] for a formatted message. *)
Definition log_color (message : string) : string :=
  if str_in "200" message then green
  else if str_in "404" message then red
  else if str_in "304" message then yellow
  else blue.

Section Methods.
Context `{PyLib}.

Definition end_headers : M unit :=
  send_header "Access-Control-Allow-Origin" "*" ;;
  send_header "Access-Control-Allow-Methods" "GET, POST, PUT, DELETE, OPTIONS" ;;
  send_header "Access-Control-Allow-Headers" "Content-Type, Authorization" ;;
  send_header "Cache-Control" "no-cache, no-store, must-revalidate" ;;
  BaseHTTPRequestHandler.end_headers.

Definition log_message (req : Request) (message : string) : M unit :=
  let timestamp := strftime_now in
  let client_ip := client_address req in
  let color := log_color message in
  print (color ++ "[" ++ timestamp ++ "] " ++ client_ip ++ " - " ++ message
           ++ reset_color).

Definition guess_type (path : string) : string :=
  if endswith path ".js" then "application/javascript"
  else if endswith path ".css" then "text/css"
  else if endswith path ".json" then "application/json"
  else if endswith path ".svg" then "image/svg+xml"
  else SimpleHTTPRequestHandler.guess_type path.

Definition class : HandlerClass :=
  mkHandlerClass end_headers guess_type log_message.

Definition do_OPTIONS (req : Request) : M unit :=
  send_response class req 200 None ;;
  end_headers.

(** The [do_] methods of the class: [do_OPTIONS] here, [do_GET] and
    [do_HEAD] inherited. *)
Definition methods (fs : FileSystem) (req : Request) (name : string)
  : option (M unit) :=
  if String.eqb name "GET" then
    Some (SimpleHTTPRequestHandler.do_GET class fs req)
  else if String.eqb name "HEAD" then
    Some (SimpleHTTPRequestHandler.do_HEAD class fs req)
  else if String.eqb name "OPTIONS" then Some (do_OPTIONS req)
  else None.

(** One accepted request, handled from a fresh handler instance. *)
Definition handle (fs : FileSystem) (req : Request) : Self :=
  snd (dispatch class req (methods fs req) (new_handler req) accepted_version).

(** One request on the wire. *)
Definition handle_one_request (fs : FileSystem) (conn : Connection) : Self :=
  snd (BaseHTTPRequestHandler.handle_one_request class (methods fs) conn).

End Methods.
End DebugHTTPRequestHandler.

(** ** A concrete library and file system, for running the handlers

    This instance splits origin-form request targets ([/path;params?query#frag])
    and maps a target to [directory ++ path] with the percent-escapes of the
    path decoded; it agrees with CPython on targets without scheme,
    authority, empty segments or dot segments, which is all the examples
    below use. *)

Module Model.

(** The value of a hexadecimal digit. *)
Definition hex_digit (c : ascii) : option nat :=
  let n := Ascii.nat_of_ascii c in
  if ((48 <=? n) && (n <=? 57))%nat then Some (n - 48)%nat
  else if ((65 <=? n) && (n <=? 70))%nat then Some (n - 55)%nat
  else if ((97 <=? n) && (n <=? 102))%nat then Some (n - 87)%nat
  else None.

(** [urllib.parse.unquote]: every [%XY] with two hexadecimal digits becomes
    the character with that code. *)
Fixpoint unquote (s : string) : string :=
  match s with
  | EmptyString => EmptyString
  | String c s' =>
      match s' with
      | String x (String y rest) =>
          match (if Ascii.eqb c "%"%char then hex_digit x else None), hex_digit y with
          | Some h, Some l => String (Ascii.ascii_of_nat (16 * h + l)) (unquote rest)
          | _, _ => String c (unquote s')
          end
      | _ => String c (unquote s')
      end
  end.

(** [_splitparams]: a [';'] counts only in the last path segment. *)
Fixpoint splitparams (url : string) : string * string :=
  match url with
  | EmptyString => (EmptyString, EmptyString)
  | String a s' =>
      if str_in "/" s' then let (l, r) := splitparams s' in (String a l, r)
      else split1 ";"%char url
  end.

Definition urlsplit (url : string) : SplitResult :=
  let (url1, fragment) := split1 "#"%char url in
  let (url2, query) := split1 "?"%char url1 in
  mkSplitResult EmptyString EmptyString url2 query fragment.

Definition urlparse (url : string) : ParseResult :=
  let parts := urlsplit url in
  let (p, params) := splitparams (sr_path parts) in
  mkParseResult EmptyString EmptyString p params
    (sr_query parts) (sr_fragment parts).

(** [prefix ++ s] unless [s] is empty. *)
Definition prefixed (prefix s : string) : string :=
  match s with
  | EmptyString => EmptyString
  | _ => prefix ++ s
  end.

Definition urlunsplit (parts : SplitResult) : string :=
  sr_path parts ++ prefixed "?" (sr_query parts) ++ prefixed "#" (sr_fragment parts).

Definition directory : string := "/srv/www".

Definition translate_path (p : string) : string :=
  directory ++ unquote (fst (split1 "#"%char (fst (split1 "?"%char p)))).

Definition mimetypes_guess_type (p : string) : string :=
  if endswith p ".html" then "text/html"
  else if endswith p ".png" then "image/png"
  else "application/octet-stream".

Definition responses (code : Z) : option (string * string) :=
  if code =? 200 then Some ("OK", "Request fulfilled, document follows")
  else if code =? 301 then Some ("Moved Permanently", "Object moved permanently")
  else if code =? 304 then Some ("Not Modified", "Document has not changed")
  else if code =? 400
       then Some ("Bad Request", "Bad request syntax or unsupported method")
  else if code =? 404 then Some ("Not Found", "Nothing matches the given URI")
  else if code =? 414 then Some ("Request-URI Too Long", "URI is too long")
  else if code =? 431
       then Some ("Request Header Fields Too Large",
                  "The server is unwilling to process the request because its header fields are too large")
  else if code =? 505
       then Some ("HTTP Version Not Supported", "Cannot fulfill request")
  else if code =? 501
       then Some ("Not Implemented", "Server does not support this operation")
  else None.

Definition error_message_format (code : Z) (message explain : string)
  : list Byte.byte :=
  list_byte_of_string
    ("<p>Error code: " ++ str code ++ "</p><p>Message: " ++ message ++ ".</p>").

Definition listing_page (entries : list string) (p : string) : list Byte.byte :=
  list_byte_of_string ("Directory listing for " ++ p ++ String.concat " " entries).

(** [int(s)] on ASCII decimal digits. *)
Fixpoint digits (s : string) (acc : Z) : option Z :=
  match s with
  | EmptyString => Some acc
  | String a s' =>
      let n := Z.of_nat (Ascii.nat_of_ascii a) in
      if (48 <=? n) && (n <=? 57) then digits s' (10 * acc + (n - 48))
      else None
  end.

Definition py_int (s : string) : option Z :=
  match s with
  | EmptyString => None
  | _ => digits s 0
  end.

#[export] Instance lib : PyLib := {
  urlparse := urlparse;
  urlsplit := urlsplit;
  urlunsplit := urlunsplit;
  directory := directory;
  translate_path := translate_path;
  mimetypes_guess_type := mimetypes_guess_type;
  version_string := "SimpleHTTP/0.6 Python/3.11.2";
  date_time_string := fun t =>
    match t with
    | None => "Tue, 03 Nov 2026 12:00:00 GMT"
    | Some m => "mtime " ++ str m
    end;
  responses := responses;
  error_message_format := error_message_format;
  error_content_type := "text/html;charset=utf-8";
  listing_page := listing_page;
  getfilesystemencoding := "utf-8";
  py_repr := fun s => "'" ++ s ++ "'";
  py_int := py_int;
  strftime_now := "2026-11-03 12:00:00";
  path_error := str_in nul;
  urlparse_root := eq_refl;
  translate_path_index := eq_refl;
  path_error_null := fun _ E => E;
  path_error_index := eq_refl
}.

Definition index_html : list Byte.byte :=
  list_byte_of_string "<!doctype html><title>NewLand</title>".

Definition root_entries : list string := ["index.html"; "main.css"; "docs"].

(** A served directory, also the working directory, holding [index.html]
    (modified at time 1000), a stylesheet and a sub-directory. *)
Definition site : FileSystem := fun p =>
  if String.eqb p "." then Some (Directory (Some root_entries))
  else if String.eqb p "/srv/www" then Some (Directory (Some root_entries))
  else if String.eqb p "/srv/www/" then Some (Directory (Some root_entries))
  else if String.eqb p "/srv/www/index.html" then Some (RegularFile index_html 1000)
  else if String.eqb p "/srv/www/main.css"
       then Some (RegularFile (list_byte_of_string "body{}") 1000)
  else if String.eqb p "/srv/www/docs" then Some (Directory (Some []))
  else if String.eqb p "/srv/www/docs/" then Some (Directory (Some []))
  else None.

Definition get (target : string) : Request :=
  mkRequest "GET" target ("GET " ++ target ++ " HTTP/1.1") "127.0.0.1" None.

(** A conditional GET for an SPA route: [index.html] was modified at time
    1000, the request carries [If-Modified-Since] for time 2000. *)
Definition conditional_get : Request :=
  mkRequest "GET" "/app/settings" "GET /app/settings HTTP/1.1" "127.0.0.1"
    (Some 2000).

Definition options (target : string) : Request :=
  mkRequest "OPTIONS" target ("OPTIONS " ++ target ++ " HTTP/1.1") "127.0.0.1" None.

Definition head (target : string) : Request :=
  mkRequest "HEAD" target ("HEAD " ++ target ++ " HTTP/1.1") "127.0.0.1" None.

Definition post (target : string) : Request :=
  mkRequest "POST" target ("POST " ++ target ++ " HTTP/1.1") "127.0.0.1" None.

(** The request line [line] and its terminator on the wire, without
    conditional headers. *)
Definition wire (line : string) : Connection :=
  mkConnection (line ++ crlf) (HeadersRead None) "127.0.0.1".

(** The served directory before the application is built: no [index.html]. *)
Definition bare_site : FileSystem := fun p =>
  if String.eqb p "/srv/www" then Some (Directory (Some []))
  else if String.eqb p "/srv/www/" then Some (Directory (Some []))
  else None.

End Model.

(** ** The two programs as processes *)

(** How a run of [main] ends: the server is up, listening on [port] (and
    stays up until interrupted), [sys.exit(code)], or an exception nobody
    catches. *)
Inductive Outcome :=
| Serving (port : Z) (directory : string)
| SysExit (code : Z)
| Uncaught (e : Exn).

Inductive Step (A : Type) :=
| Continue (a : A)
| Stop (o : Outcome).
Arguments Continue {A} a.
Arguments Stop {A} o.

(** Straight-line code that prints and may stop the process. *)
Definition P (A : Type) : Type := list string -> Step A * list string.

Definition pret {A} (a : A) : P A := fun out => (Continue a, out).

Definition pbind {A B} (m : P A) (k : A -> P B) : P B := fun out =>
  match m out with
  | (Continue a, out') => k a out'
  | (Stop o, out') => (Stop o, out')
  end.

Declare Scope process_scope.
Delimit Scope process_scope with process.
Notation "x <- m ;; k" := (pbind m (fun x => k))
  (at level 61, m at next level, right associativity) : process_scope.
Notation "m ;; k" := (pbind m (fun _ => k))
  (at level 61, right associativity) : process_scope.

Definition pprint (line : string) : P unit := fun out =>
  (Continue tt, (out ++ [line])%list).
Definition sys_exit {A} (code : Z) : P A := fun out => (Stop (SysExit code), out).
Definition raise {A} (e : Exn) : P A := fun out => (Stop (Uncaught e), out).
Definition serve_forever {A} (port : Z) (dir : string) : P A :=
  fun out => (Stop (Serving port dir), out).

(** What the operating system shows of a finished run. *)
Record Run := mkRun { printed : list string; outcome : Outcome }.

Definition run (m : P unit) : Run :=
  match m [] with
  | (Continue _, out) => mkRun out (SysExit 0)
  | (Stop o, out) => mkRun out o
  end.

(** The exit status of the interpreter: the argument of [sys.exit], 1 after
    an uncaught exception; none while the server runs. *)
Definition exit_status (o : Outcome) : option Z :=
  match o with
  | Serving _ _ => None
  | SysExit code => Some code
  | Uncaught _ => Some 1
  end.

Definition exn_name (e : Exn) : string :=
  match e with
  | ValueError => "ValueError"
  | OverflowError => "OverflowError"
  | OSError => "OSError"
  end.

(** The interpreter's report of an uncaught exception on standard error. *)
Definition stderr (o : Outcome) : list string :=
  match o with
  | Uncaught e => ["Traceback (most recent call last):"; exn_name e]
  | _ => []
  end.

(** The network as [socket.bind] sees it: [can_bind port] says whether
    [port] can be bound, and [ephemeral_port] is the port the kernel gives to
    a socket bound to port 0. *)
Record Network := mkNetwork {
  can_bind : Z -> bool;
  ephemeral_port : Z }.

(** [s.bind(('', port))]: [OverflowError] outside 0..65535, [OSError] when
    the port cannot be bound. *)
Definition socket_bind (net : Network) (port : Z) : option Exn :=
  if (port <? 0) || (65535 <? port) then Some OverflowError
  else if can_bind net port then None
  else Some OSError.

(** [s.getsockname()[1]] of a socket bound with [s.bind(('', port))]: the
    port it listens on. *)
Definition getsockname (net : Network) (port : Z) : Z :=
  if port =? 0 then ephemeral_port net else port.

(** Ports 8080 to 8082 are taken, everything from 8083 on is free, and a
    socket bound to port 0 gets port 49152. *)
Definition busy_until_8083 : Network :=
  mkNetwork (fun port => (port =? 0) || (8083 <=? port)) 49152.

Module debug_server.
Open Scope process_scope.

Definition is_port_available (net : Network) (port : Z) : P bool :=
  match socket_bind net port with
  | None => pret true
  | Some OSError => pret false
  | Some e => raise e
  end.

(** The loop [for port in range(start_port, start_port + max_attempts)],
    with [n] ports left to try. *)
Fixpoint find_available_port_loop (net : Network) (port : Z) (n : nat)
  : P (option Z) :=
  match n with
  | O => pret None
  | S n' =>
      available <- is_port_available net port ;;
      if available then pret (Some port)
      else find_available_port_loop net (port + 1) n'
  end.

Definition find_available_port (net : Network) (start_port : Z)
    (max_attempts : Z) : P (option Z) :=
  find_available_port_loop net start_port (Z.to_nat max_attempts).

(** [os.chdir(directory)] raises (a subclass of) [OSError] unless
    [directory] is a directory. *)
Definition os_chdir (fs : FileSystem) (directory : string) : P unit :=
  if os_path.isdir fs directory then pret tt else raise OSError.

Definition nl : string := String (Ascii.ascii_of_nat 10) EmptyString.

(** Python truth value of [available_port]: [None] and [0] are false. *)
Definition truthy (available_port : option Z) : bool :=
  match available_port with
  | Some port => negb (port =? 0)
  | None => false
  end.

Section Main.
Context `{PyLib}.

(** [main].  Creating the [HTTPServer] binds the port; an exception there is
    caught by [except Exception], reported (here by its class name) and
    [main] returns.  [serve_forever] stands for the banner and the serving
    loop, on the port the server's socket is bound to. *)
Definition main (net : Network) (fs : FileSystem) (argv : list string) : P unit :=
  let port := 8080 in
  let directory := "." in
  port <-
    match argv with
    | _ :: arg1 :: _ =>
        match py_int arg1 with
        | Some n => pret n
        | None =>
            pprint "❌ 错误: 端口号必须是数字" ;;
            sys_exit 1
        end
    | _ => pret port
    end ;;
  directory <-
    match argv with
    | _ :: _ :: arg2 :: _ =>
        if negb (os_path.exists_ fs arg2) then
          pprint ("❌ 错误: 目录 '" ++ arg2 ++ "' 不存在") ;;
          sys_exit 1
        else pret arg2
    | _ => pret directory
    end ;;
  available <- is_port_available net port ;;
  port <-
    (if negb available then
       pprint ("⚠️  警告: 端口 " ++ str port ++ " 已被占用，正在寻找可用端口...") ;;
       available_port <- find_available_port net port 100 ;;
       if truthy available_port then
         let port := match available_port with Some q => q | None => port end in
         pprint ("✅ 找到可用端口: " ++ str port) ;;
         pret port
       else
         pprint "❌ 错误: 无法找到可用端口" ;;
         sys_exit 1
     else pret port) ;;
  os_chdir fs directory ;;
  match socket_bind net port with
  | None => serve_forever (getsockname net port) directory
  | Some e => pprint (nl ++ "❌ 服务器错误: " ++ exn_name e)
  end.

End Main.
End debug_server.

Module spa_server.
Open Scope process_scope.

Definition run_server (net : Network) (port : Z) : P unit :=
  match socket_bind net port with
  | Some e => raise e
  | None => serve_forever (getsockname net port) "."
  end.

Section Main.
Context `{PyLib}.

Definition main (net : Network) (argv : list string) : P unit :=
  port <-
    match argv with
    | _ :: arg1 :: _ =>
        match py_int arg1 with
        | Some n => pret n
        | None => raise ValueError
        end
    | _ => pret 8000
    end ;;
  run_server net port.

End Main.
End spa_server.

(** ** Observing a run *)

(** [port] can be bound. *)
Definition available (net : Network) (port : Z) : Prop :=
  socket_bind net port = None.

(** The process ends by itself with a nonzero exit status. *)
Definition exits_nonzero (r : Run) : Prop :=
  exists code, exit_status (outcome r) = Some code /\ code <> 0.

(** Something was written to standard output or standard error. *)
Definition reports_error (r : Run) : Prop :=
  (printed r ++ stderr (outcome r))%list <> [].

(** ** Observing a response *)

Fixpoint header_blocks (w : list Written) : list (list Line) :=
  match w with
  | [] => []
  | HeaderBlock lines :: w' => lines :: header_blocks w'
  | Payload _ :: w' => header_blocks w'
  end.

(** The body: everything written after the header block. *)
Fixpoint body (w : list Written) : list Byte.byte :=
  match w with
  | [] => []
  | HeaderBlock _ :: w' => body w'
  | Payload data :: w' => (data ++ body w')%list
  end.

Fixpoint status_of (lines : list Line) : option Z :=
  match lines with
  | StatusLine _ code _ :: _ => Some code
  | _ :: lines' => status_of lines'
  | [] => None
  end.

(** The status code of the response. *)
Definition status (w : list Written) : option Z :=
  match header_blocks w with
  | lines :: _ => status_of lines
  | [] => None
  end.

Definition has_header (keyword value : string) (lines : list Line) : Prop :=
  In (HeaderLine keyword value) lines.

Definition cors (lines : list Line) : Prop :=
  has_header "Access-Control-Allow-Origin" "*" lines.

(** [m] writes no header block when the request version is [HTTP/0.9]. *)
Definition bare {A} (m : M A) : Prop :=
  forall self, exists added,
    wfile (snd (m self "HTTP/0.9")) = (wfile self ++ added)%list /\
    header_blocks added = [].

(** [m] does the same under every request version other than [HTTP/0.9]. *)
Definition version_blind {A} (m : M A) : Prop :=
  forall self v v',
    String.eqb v "HTTP/0.9" = false -> String.eqb v' "HTTP/0.9" = false ->
    m self v = m self v'.

(** ** Observing a whole exchange *)

Definition is_field (l : Line) : Prop :=
  match l with
  | HeaderLine _ _ => True
  | _ => False
  end.

(** The message [log_request] formats for a status code. *)
Definition request_log_message (req : Request) (code : Z) : string :=
  BaseHTTPRequestHandler.dquote ++ requestline req ++ BaseHTTPRequestHandler.dquote
    ++ " " ++ str code ++ " " ++ "-".

(** The message [send_error] hands to [log_error]. *)
Definition error_log_message (code : Z) (message : string) : string :=
  "code " ++ str code ++ ", message " ++ message.

(** The line [SPAHandler.log_message] prints for a formatted message. *)
Definition spa_log_line (req : Request) (message : string) : string :=
  "🌐 " ++ client_address req ++ " - " ++ message.

(** The line [DebugHTTPRequestHandler.log_message] prints. *)
Definition debug_log_line `{PyLib} (req : Request) (message : string) : string :=
  DebugHTTPRequestHandler.log_color message ++ "[" ++ strftime_now ++ "] "
    ++ client_address req ++ " - " ++ message ++ DebugHTTPRequestHandler.reset_color.

(** The headers [SPAHandler.end_headers] adds, in its order. *)
Definition spa_cors_headers : list Line :=
  [HeaderLine "Access-Control-Allow-Origin" "*";
   HeaderLine "Access-Control-Allow-Methods" "GET, POST, OPTIONS";
   HeaderLine "Access-Control-Allow-Headers" "Content-Type"].

(** The headers [DebugHTTPRequestHandler.end_headers] adds, in its order. *)
Definition debug_cors_headers : list Line :=
  [HeaderLine "Access-Control-Allow-Origin" "*";
   HeaderLine "Access-Control-Allow-Methods" "GET, POST, PUT, DELETE, OPTIONS";
   HeaderLine "Access-Control-Allow-Headers" "Content-Type, Authorization";
   HeaderLine "Cache-Control" "no-cache, no-store, must-revalidate"].

(** The handler after one complete answer written from [self]: a single
    header block (status line, header fields, the class's [trailer], blank
    line), then [payloads]; the log lines [errors] and the request line with
    the status code. *)
Definition answer_state (trailer : list Line) (fmt : string -> string)
    (req : Request) (self : Self) (code : Z) (message : string)
    (fields : list Line) (payloads : list Written) (errors : list string) : Self :=
  mkSelf (path self) []
    (wfile self
       ++ HeaderBlock (StatusLine "HTTP/1.0" code message
                         :: fields ++ trailer ++ [BlankLine])
       :: payloads)
    (stdout self ++ errors ++ [fmt (request_log_message req code)]).

(** Between [self] and [self'] exactly one answer was written and logged:
    one header block, the status line first and the class's headers last, at
    most one piece of body data after it, at most one error line before the
    request-log line, which shows the status code that was sent. *)
Definition answered (trailer : list Line) (fmt : string -> string)
    (req : Request) (self self' : Self) : Prop :=
  _headers_buffer self' = [] /\
  exists code message fields payloads errors,
    wfile self'
    = (wfile self
         ++ HeaderBlock (StatusLine "HTTP/1.0" code message
                           :: fields ++ trailer ++ [BlankLine])
         :: payloads)%list /\
    Forall is_field fields /\
    (payloads = [] \/ exists data, payloads = [Payload data]) /\
    stdout self' = (stdout self ++ errors ++ [fmt (request_log_message req code)])%list /\
    (List.length errors <= 1)%nat.

(** Code run from [self] raised [ValueError] before it wrote or logged
    anything. *)
Definition raised_early {A} (self : Self) (r : Result A * Self) : Prop :=
  fst r = Raised ValueError /\
  _headers_buffer (snd r) = _headers_buffer self /\
  wfile (snd r) = wfile self /\
  stdout (snd r) = stdout self.

(** What [send_head] (or a part of it) leaves when run from [self]: an
    early [ValueError], or one answer, with body data only if it is an error
    page, and then no file to copy. *)
Definition head_answer (trailer : list Line) (fmt : string -> string)
    (req : Request) (self : Self)
    (r : Result (option (list Byte.byte)) * Self) : Prop :=
  raised_early self r \/
  exists f code message fields payloads errors,
    r = (Ok f, answer_state trailer fmt req self code message fields payloads errors) /\
    Forall is_field fields /\
    (List.length errors <= 1)%nat /\
    (payloads = [] \/
     (f = None /\ command req <> "HEAD" /\ exists page, payloads = [Payload page])).

(** One exchange run from [self]: the handler raised early, or it returned
    after exactly one answer. *)
Definition exchange (trailer : list Line) (fmt : string -> string)
    (req : Request) (self : Self) (r : Result unit * Self) : Prop :=
  raised_early self r \/
  (fst r = Ok tt /\ answered trailer fmt req self (snd r)).

(** A response that starts with its only header block, which carries the
    CORS header. *)
Definition cors_response (w : list Written) : Prop :=
  exists lines rest,
    w = HeaderBlock lines :: rest /\ cors lines /\ header_blocks rest = [].

(** The reason phrase [send_response_only] puts on the status line. *)
Definition reason_phrase `{PyLib} (code : Z) (message : option string) : string :=
  match message with
  | Some m => m
  | None => match responses code with
            | Some (shortmsg, _) => shortmsg
            | None => EmptyString
            end
  end.

(** The short and long texts [send_error] falls back on. *)
Definition error_texts `{PyLib} (code : Z) : string * string :=
  match responses code with Some p => p | None => ("???", "???") end.

(** The header fields [send_error] sends for a status code and error page. *)
Definition error_fields `{PyLib} (code : Z) (page : list Byte.byte) : list Line :=
  [HeaderLine "Server" version_string;
   HeaderLine "Date" (date_time_string None);
   HeaderLine "Connection" "close"]
  ++ (if BaseHTTPRequestHandler.has_body code
      then [HeaderLine "Content-Type" error_content_type;
            HeaderLine "Content-Length" (str (Z.of_nat (List.length page)))]
      else []).

(** The body [send_error] writes: the page, unless the status has no body,
    the page is empty or the request is a HEAD. *)
Definition error_payloads (req : Request) (code : Z) (page : list Byte.byte)
  : list Written :=
  if BaseHTTPRequestHandler.has_body code
  then match page with
       | [] => []
       | _ :: _ =>
           if negb (String.eqb (command req) "HEAD") then [Payload page] else []
       end
  else [].

(** ** Tactics for running handler code symbolically *)

Ltac unfold_handlers_once :=
  cbv beta iota zeta delta
    [SPAHandler.handle SPAHandler.methods SPAHandler.do_GET
     SPAHandler.super_do_GET SPAHandler.class SPAHandler.end_headers
     SPAHandler.log_message
     DebugHTTPRequestHandler.handle DebugHTTPRequestHandler.methods
     DebugHTTPRequestHandler.do_OPTIONS DebugHTTPRequestHandler.class
     DebugHTTPRequestHandler.end_headers DebugHTTPRequestHandler.log_message
     SimpleHTTPRequestHandler.do_GET SimpleHTTPRequestHandler.do_HEAD
     SimpleHTTPRequestHandler.send_head SimpleHTTPRequestHandler.send_head_file
     SimpleHTTPRequestHandler.list_directory
     SimpleHTTPRequestHandler.guess_type
     BaseHTTPRequestHandler.dispatch BaseHTTPRequestHandler.send_error
     BaseHTTPRequestHandler.send_response
     BaseHTTPRequestHandler.send_response_only
     BaseHTTPRequestHandler.log_request BaseHTTPRequestHandler.log_error_code
     BaseHTTPRequestHandler.send_header BaseHTTPRequestHandler.end_headers
     BaseHTTPRequestHandler.flush_headers
     self_end_headers self_guess_type self_log_message
     new_handler bind ret throw get_request_version
     get_path set_path buffer_append wfile_write print
     path _headers_buffer wfile stdout
     command request_target requestline client_address if_modified_since
     negb fst snd].

(** Unfolds the handler code of an accepted request, deciding the tests of
    the request version. *)
Ltac unfold_handlers :=
  unfold_handlers_once;
  change (String.eqb accepted_version "HTTP/0.9") with false;
  unfold_handlers_once.

(** Splits on the first test the goal is stuck on. *)
Ltac split_test :=
  match goal with
  | |- context [match ?x with _ => _ end] =>
      lazymatch x with
      | context [match _ with _ => _ end] => fail
      | _ => destruct x eqn:?
      end
  end.


(** * Properties *)

(** ** The string operations on examples *)

Example endswith_js : endswith "static/app.js" ".js" = true.
Proof. reflexivity. Qed.

Example endswith_upper : endswith "static/app.JS" ".js" = false.
Proof. reflexivity. Qed.

Example basename_settings : basename "/app/settings" = "settings".
Proof. reflexivity. Qed.

Example basename_slash : basename "/app/" = EmptyString.
Proof. reflexivity. Qed.

Example str_404 : str 404 = "404".
Proof. reflexivity. Qed.

Example join_dir : os_path_join "/srv/www" "index.html" = "/srv/www/index.html".
Proof. reflexivity. Qed.

(** ** Facts about [endswith] *)

Lemma append_assoc (a b c : string) : (a ++ b) ++ c = a ++ (b ++ c).
Proof. induction a as [|x a IH]; cbn; [reflexivity | now rewrite IH]. Qed.

Lemma length_append (a b : string) :
  String.length (a ++ b) = (String.length a + String.length b)%nat.
Proof. induction a as [|x a IH]; cbn; [reflexivity | now rewrite IH]. Qed.

Lemma endswith_refl s : endswith s s = true.
Proof. destruct s; cbn; [reflexivity | now rewrite Ascii.eqb_refl, String.eqb_refl]. Qed.

Lemma endswith_spec s suffix :
  endswith s suffix = true <-> exists p, s = p ++ suffix.
Proof.
  split.
  - induction s as [|c s IH]; cbn [endswith].
    + destruct (String.eqb_spec EmptyString suffix) as [E|_]; [|discriminate].
      exists EmptyString. now rewrite <- E.
    + destruct (String.eqb_spec (String c s) suffix) as [E|_].
      * exists EmptyString. now rewrite <- E.
      * intros Hs. destruct (IH Hs) as [p ->]. now exists (String c p).
  - intros [p ->]. induction p as [|c p IH]; cbn [endswith append].
    + apply endswith_refl.
    + now rewrite IH, Tauto.if_same.
Qed.

(** Two ways of cutting one string: the shorter tail is a tail of the longer. *)
Lemma append_tail_cases x : forall y a b,
  x ++ a = y ++ b -> (String.length a <= String.length b)%nat ->
  exists z, b = z ++ a.
Proof.
  induction x as [|c x IH]; intros y a b E L; cbn in E.
  - subst a. destruct y as [|d y]; [now exists EmptyString|].
    cbn in L. rewrite length_append in L. lia.
  - destruct y as [|d y]; cbn in E.
    + subst b. now exists (String c x).
    + injection E as _ E. eapply IH; eauto.
Qed.

(** Whether a string ends with a suffix is decided by any tail at least as
    long as the suffix. *)
Lemma endswith_append x a b :
  (String.length a <= String.length b)%nat ->
  endswith (x ++ b) a = endswith b a.
Proof.
  intros L. destruct (endswith b a) eqn:Eb.
  - apply endswith_spec in Eb as [p ->]. apply endswith_spec.
    exists (x ++ p). now rewrite append_assoc.
  - destruct (endswith (x ++ b) a) eqn:Ex; [|reflexivity].
    apply endswith_spec in Ex as [p Ep]. symmetry in Ep.
    destruct (append_tail_cases _ _ _ _ Ep L) as [z Ez].
    assert (endswith b a = true) by (apply endswith_spec; eauto).
    congruence.
Qed.

Lemma endswith_append_longer x a b :
  (String.length b <= String.length a)%nat ->
  endswith a b = false -> endswith (x ++ b) a = false.
Proof.
  intros L Hab. destruct (endswith (x ++ b) a) eqn:Ex; [|reflexivity].
  apply endswith_spec in Ex as [p Ep].
  destruct (append_tail_cases _ _ _ _ Ep L) as [z Ez].
  assert (endswith a b = true) by (apply endswith_spec; eauto).
  congruence.
Qed.

Lemma os_path_join_index_not_slash d :
  endswith (os_path_join d "index.html") "/" = false.
Proof.
  unfold os_path_join.
  change (String.prefix "/" "index.html") with false. cbv iota.
  destruct (_ || _); now rewrite endswith_append by (cbn; lia).
Qed.

(** ** MIME type overrides of the debug server *)

Section MimeTypes.
Context `{PyLib}.

Lemma guess_type_fallthrough p :
  endswith p ".js" = false -> endswith p ".css" = false ->
  endswith p ".json" = false -> endswith p ".svg" = false ->
  DebugHTTPRequestHandler.guess_type p = SimpleHTTPRequestHandler.guess_type p.
Proof.
  intros J C N G. unfold DebugHTTPRequestHandler.guess_type.
  now rewrite J, C, N, G.
Qed.

Ltac suffix_test :=
  repeat first
    [ rewrite endswith_append by (cbn; lia)
    | rewrite endswith_append_longer by (cbn; first [lia | reflexivity]) ];
  cbn.

(** C10: the overrides of [guess_type] are exact, case-sensitive suffix
    matches.  Every path ending in [.js], [.css], [.json] or [.svg] gets
    the explicit content type, and a path ending in the upper-case variant
    of one of them is passed to the inherited type inference. *)
Theorem guess_type_suffix_case_sensitive (stem : string) :
  DebugHTTPRequestHandler.guess_type (stem ++ ".js") = "application/javascript" /\
  DebugHTTPRequestHandler.guess_type (stem ++ ".css") = "text/css" /\
  DebugHTTPRequestHandler.guess_type (stem ++ ".json") = "application/json" /\
  DebugHTTPRequestHandler.guess_type (stem ++ ".svg") = "image/svg+xml" /\
  DebugHTTPRequestHandler.guess_type (stem ++ ".JS")
    = SimpleHTTPRequestHandler.guess_type (stem ++ ".JS") /\
  DebugHTTPRequestHandler.guess_type (stem ++ ".CSS")
    = SimpleHTTPRequestHandler.guess_type (stem ++ ".CSS") /\
  DebugHTTPRequestHandler.guess_type (stem ++ ".JSON")
    = SimpleHTTPRequestHandler.guess_type (stem ++ ".JSON") /\
  DebugHTTPRequestHandler.guess_type (stem ++ ".SVG")
    = SimpleHTTPRequestHandler.guess_type (stem ++ ".SVG").
Proof.
  unfold DebugHTTPRequestHandler.guess_type.
  repeat split; suffix_test; reflexivity.
Qed.

End MimeTypes.

(** ** Routing of the SPA server *)

Section SPARouting.
Context `{PyLib}.

(** [do_GET] is the inherited [do_GET] run on the path chosen by [route]. *)
Lemma do_GET_route fs req self :
  SPAHandler.do_GET fs req self
  = SPAHandler.super_do_GET fs req
      (mkSelf (SPAHandler.served_path (path self) (SPAHandler.route fs (path self)))
         (_headers_buffer self) (wfile self) (stdout self)).
Proof.
  destruct self as [p b w o].
  unfold SPAHandler.do_GET, SPAHandler.route, SPAHandler.served_path,
    bind, get_path, set_path; cbn [path _headers_buffer wfile stdout].
  destruct (String.eqb _ "/"); [reflexivity|].
  destruct (str_in _ _); [reflexivity|].
  destruct (negb _); reflexivity.
Qed.

Lemma route_path_component fs t1 t2 :
  pr_path (urlparse t1) = pr_path (urlparse t2) ->
  SPAHandler.route fs t1 = SPAHandler.route fs t2.
Proof. unfold SPAHandler.route. now intros ->. Qed.

(** C9: the branch taken by [do_GET] is a function of the path component of
    the request target alone: two targets with the same path component
    (whatever their query strings) take the same branch; and whenever the
    request is rewritten, the path handed to the static handler is exactly
    [/index.html], without any query string. *)
Theorem routing_depends_on_path_component_only fs req self t :
  pr_path (urlparse t) = pr_path (urlparse (path self)) ->
  let r := SPAHandler.route fs t in
  r = SPAHandler.route fs (path self) /\
  SPAHandler.do_GET fs req self
  = SPAHandler.super_do_GET fs req
      (mkSelf (SPAHandler.served_path (path self) r)
         (_headers_buffer self) (wfile self) (stdout self)) /\
  match r with
  | SPAHandler.RootIndex | SPAHandler.SpaFallback =>
      SPAHandler.served_path (path self) r = "/index.html" /\
      str_in "?" (SPAHandler.served_path (path self) r) = false
  | SPAHandler.StaticAsset | SPAHandler.PassThrough =>
      SPAHandler.served_path (path self) r = path self
  end.
Proof.
  intros E r. subst r. rewrite (route_path_component fs _ _ E).
  split; [reflexivity|]. split; [apply do_GET_route|].
  destruct (SPAHandler.route fs (path self)); cbn; auto.
Qed.

End SPARouting.

(** ** Handler code run step by step

    The inherited methods, for a class whose [log_message] prints one line
    and whose [end_headers] adds the headers [trailer], while the request
    version is not [HTTP/0.9]. *)

Section AnswerShape.
Context `{PyLib}.
Variable cls : HandlerClass.
Variable fs : FileSystem.
Variable req : Request.
Variable trailer : list Line.
Variable fmt : string -> string.
Variable v : string.
Hypothesis version_set : String.eqb v "HTTP/0.9" = false.
Hypothesis log_prints : forall msg s,
  self_log_message cls req msg s v
  = (Ok tt, mkSelf (path s) (_headers_buffer s) (wfile s) (stdout s ++ [fmt msg])).
Hypothesis end_flushes : forall s,
  self_end_headers cls s v
  = (Ok tt,
     mkSelf (path s) []
       (wfile s ++ [HeaderBlock (_headers_buffer s ++ trailer ++ [BlankLine])])
       (stdout s)).

Lemma send_header_run keyword value s :
  BaseHTTPRequestHandler.send_header keyword value s v
  = (Ok tt,
     mkSelf (path s) (_headers_buffer s ++ [HeaderLine keyword value]) (wfile s)
       (stdout s)).
Proof.
  unfold BaseHTTPRequestHandler.send_header, bind, get_request_version.
  now rewrite version_set.
Qed.

Lemma send_response_only_run code message s :
  BaseHTTPRequestHandler.send_response_only code message s v
  = (Ok tt,
     mkSelf (path s)
       (_headers_buffer s ++ [StatusLine "HTTP/1.0" code (reason_phrase code message)])
       (wfile s) (stdout s)).
Proof.
  unfold BaseHTTPRequestHandler.send_response_only, bind, get_request_version.
  now rewrite version_set.
Qed.

Lemma end_headers_run s :
  BaseHTTPRequestHandler.end_headers s v
  = (Ok tt,
     mkSelf (path s) [] (wfile s ++ [HeaderBlock (_headers_buffer s ++ [BlankLine])])
       (stdout s)).
Proof.
  unfold BaseHTTPRequestHandler.end_headers, bind, get_request_version.
  now rewrite version_set.
Qed.

Ltac run_headers :=
  unfold bind, ret, get_path;
  repeat (first [ rewrite log_prints
                | rewrite send_response_only_run
                | rewrite send_header_run
                | rewrite end_flushes ];
          cbn [path _headers_buffer wfile stdout app fst snd]).

Lemma send_response_run code message s :
  BaseHTTPRequestHandler.send_response cls req code message s v
  = (Ok tt,
     mkSelf (path s)
       (_headers_buffer s
          ++ [StatusLine "HTTP/1.0" code (reason_phrase code message);
              HeaderLine "Server" version_string;
              HeaderLine "Date" (date_time_string None)])
       (wfile s)
       (stdout s ++ [fmt (request_log_message req code)])).
Proof.
  unfold BaseHTTPRequestHandler.send_response, BaseHTTPRequestHandler.log_request.
  run_headers. unfold request_log_message. now rewrite <- !app_assoc.
Qed.

Lemma send_error_run code message explain s :
  _headers_buffer s = [] ->
  let msg := match message with Some m => m | None => fst (error_texts code) end in
  let exp := match explain with Some e => e | None => snd (error_texts code) end in
  let page := error_message_format code msg exp in
  BaseHTTPRequestHandler.send_error cls req code message explain s v
  = (Ok tt,
     answer_state trailer fmt req s code msg (error_fields code page)
       (error_payloads req code page) [fmt (error_log_message code msg)]).
Proof.
  destruct s as [p b w o]. cbn [_headers_buffer]. intros ->. cbv zeta.
  unfold BaseHTTPRequestHandler.send_error, error_texts.
  destruct (responses code) as [[shortmsg longmsg]|]; cbn [fst snd].
  all: unfold BaseHTTPRequestHandler.log_error_code, bind.
  all: rewrite log_prints, send_response_run.
  all: cbn [path _headers_buffer wfile stdout app].
  all: rewrite send_header_run; cbn [path _headers_buffer wfile stdout app].
  all: unfold answer_state, error_fields, error_payloads, error_log_message,
         reason_phrase.
  all: destruct (BaseHTTPRequestHandler.has_body code).
  all: run_headers.
  all: try match goal with
           | |- context [error_message_format ?c ?m ?e] =>
               destruct (error_message_format c m e) as [|x page]
           end.
  all: try destruct (negb (String.eqb (command req) "HEAD")).
  all: unfold wfile_write; cbn [path _headers_buffer wfile stdout app List.length].
  all: rewrite <- ?app_assoc; cbn [app]; reflexivity.
Qed.

Lemma error_fields_are_fields code page : Forall is_field (error_fields code page).
Proof.
  unfold error_fields. destruct (BaseHTTPRequestHandler.has_body code);
    repeat constructor.
Qed.

Lemma error_payloads_cases code page :
  error_payloads req code page = [] \/
  (command req <> "HEAD" /\ error_payloads req code page = [Payload page]).
Proof.
  unfold error_payloads. destruct (BaseHTTPRequestHandler.has_body code); [|now left].
  destruct page as [|x page]; [now left|].
  destruct (String.eqb_spec (command req) "HEAD"); cbn [negb]; [now left|].
  right. now split.
Qed.

(** An error answer, followed by [return None]. *)
Lemma head_answer_error code message explain s :
  _headers_buffer s = [] ->
  head_answer trailer fmt req s
    (bind (BaseHTTPRequestHandler.send_error cls req code message explain)
       (fun _ => ret None) s v).
Proof.
  intros Hb. unfold bind. rewrite (send_error_run _ _ _ _ Hb). cbv zeta.
  unfold ret. right.
  do 6 eexists. split; [reflexivity|]. split; [apply error_fields_are_fields|].
  split; [cbn; lia|].
  match goal with
  | |- context [error_payloads req ?c ?p] =>
      destruct (error_payloads_cases c p) as [E|[Hh E]]; rewrite E
  end; [now left | right; eauto].
Qed.

Lemma head_answer_plain code fields s (f : option (list Byte.byte)) :
  Forall is_field fields ->
  head_answer trailer fmt req s
    (Ok f, answer_state trailer fmt req s code (reason_phrase code None) fields [] []).
Proof.
  intros Hf. right. exists f, code, (reason_phrase code None), fields, [], [].
  cbn [List.length]. repeat split; auto.
Qed.

Lemma head_answer_raised s (A := option (list Byte.byte)) :
  head_answer trailer fmt req s (@throw A ValueError s v).
Proof. left. unfold throw. repeat split. Qed.

(** [open] raises nothing but [OSError] and [ValueError]. *)
Lemma open_rb_cases p :
  (exists f st_mtime, open_rb fs p = Ok (f, st_mtime)) \/
  open_rb fs p = Raised OSError \/
  (open_rb fs p = Raised ValueError /\ fs p = None /\ path_error p = true).
Proof.
  unfold open_rb. destruct (fs p) as [[data m|e]|]; eauto.
  destruct (path_error p); auto.
Qed.

Lemma head_answer_send_head_file p s :
  _headers_buffer s = [] ->
  head_answer trailer fmt req s
    (SimpleHTTPRequestHandler.send_head_file cls fs req p s v).
Proof.
  intros Hb. unfold SimpleHTTPRequestHandler.send_head_file.
  destruct (endswith p "/"); [now apply head_answer_error|].
  destruct (open_rb_cases p) as [(f & st_mtime & ->)|[->|(-> & _)]];
    [|now apply head_answer_error|apply head_answer_raised].
  destruct s as [sp b w o]. cbn [_headers_buffer] in Hb. subst b.
  destruct (SimpleHTTPRequestHandler.not_modified req st_mtime);
    unfold bind; rewrite send_response_run; run_headers.
  - apply (head_answer_plain 304
             [HeaderLine "Server" version_string;
              HeaderLine "Date" (date_time_string None)]).
    repeat constructor.
  - apply (head_answer_plain 200
             [HeaderLine "Server" version_string;
              HeaderLine "Date" (date_time_string None);
              HeaderLine "Content-type" (self_guess_type cls p);
              HeaderLine "Content-Length" (str (Z.of_nat (List.length f)));
              HeaderLine "Last-Modified" (date_time_string (Some st_mtime))]).
    repeat constructor.
Qed.

Lemma head_answer_list_directory p s :
  _headers_buffer s = [] ->
  head_answer trailer fmt req s
    (SimpleHTTPRequestHandler.list_directory cls fs req p s v).
Proof.
  intros Hb. unfold SimpleHTTPRequestHandler.list_directory.
  destruct (fs p) as [[data m|[entries|]]|]; try now apply head_answer_error.
  destruct s as [sp b w o]. cbn [_headers_buffer] in Hb. subst b.
  unfold bind, get_path. cbn [path]. rewrite send_response_run. run_headers.
  apply (head_answer_plain 200
           [HeaderLine "Server" version_string;
            HeaderLine "Date" (date_time_string None);
            HeaderLine "Content-type" ("text/html; charset=" ++ getfilesystemencoding);
            HeaderLine "Content-Length"
              (str (Z.of_nat (List.length (listing_page entries sp))))]).
  repeat constructor.
Qed.

Lemma head_answer_send_head s :
  _headers_buffer s = [] ->
  head_answer trailer fmt req s (SimpleHTTPRequestHandler.send_head cls fs req s v).
Proof.
  intros Hb. unfold SimpleHTTPRequestHandler.send_head.
  unfold bind at 1. unfold get_path at 1. cbv beta iota.
  destruct (os_path.isdir fs _); [|now apply head_answer_send_head_file].
  destruct (negb _).
  - destruct s as [sp b w o]. cbn [_headers_buffer] in Hb. subst b.
    unfold bind. rewrite send_response_run. run_headers.
    match goal with
    | |- context [HeaderLine "Location" ?u] =>
        apply (head_answer_plain 301
                 [HeaderLine "Server" version_string;
                  HeaderLine "Date" (date_time_string None);
                  HeaderLine "Location" u;
                  HeaderLine "Content-Length" "0"])
    end.
    repeat constructor.
  - destruct (os_path.isfile fs _); [now apply head_answer_send_head_file|].
    destruct (os_path.isfile fs _); [now apply head_answer_send_head_file|].
    now apply head_answer_list_directory.
Qed.

Lemma raised_early_bind {A B} (m : M A) (k : A -> M B) s :
  raised_early s (m s v) -> raised_early s (bind m k s v).
Proof.
  unfold raised_early, bind. destruct (m s v) as [[a|e] s']; cbn [fst snd].
  - intros [E _]. discriminate E.
  - intros (E & Hb & Hw & Ho). injection E as ->. repeat split; assumption.
Qed.

Lemma exchange_do_GET s :
  _headers_buffer s = [] ->
  exchange trailer fmt req s (SimpleHTTPRequestHandler.do_GET cls fs req s v).
Proof.
  intros Hb. unfold SimpleHTTPRequestHandler.do_GET.
  destruct (head_answer_send_head s Hb)
    as [Hr|(f & code & message & fields & payloads & errors & E & Ff & Le & Hp)];
    [left; now apply raised_early_bind|].
  right. unfold bind. rewrite E.
  destruct f as [data|]; unfold wfile_write, ret, answered, answer_state;
    cbn [path _headers_buffer wfile stdout fst snd].
  - destruct Hp as [->|(Hn & _)]; [|discriminate Hn].
    split; [reflexivity|]. split; [reflexivity|].
    exists code, message, fields, [Payload data], errors.
    rewrite <- app_assoc. cbn [app]. repeat split; eauto.
  - split; [reflexivity|]. split; [reflexivity|].
    exists code, message, fields, payloads, errors.
    repeat split; auto.
    destruct Hp as [->|(_ & _ & page & ->)]; eauto.
Qed.

(** [do_HEAD] answers, and writes body data only if the command is not
    [HEAD]. *)
Lemma head_answer_do_HEAD s :
  _headers_buffer s = [] ->
  raised_early s (SimpleHTTPRequestHandler.do_HEAD cls fs req s v) \/
  exists code message fields payloads errors,
    SimpleHTTPRequestHandler.do_HEAD cls fs req s v
    = (Ok tt, answer_state trailer fmt req s code message fields payloads errors) /\
    Forall is_field fields /\ (List.length errors <= 1)%nat /\
    (payloads = [] \/ (command req <> "HEAD" /\ exists page, payloads = [Payload page])).
Proof.
  intros Hb. unfold SimpleHTTPRequestHandler.do_HEAD.
  destruct (head_answer_send_head s Hb)
    as [Hr|(f & code & message & fields & payloads & errors & E & Ff & Le & Hp)];
    [left; now apply raised_early_bind|].
  right. unfold bind. rewrite E. unfold ret.
  exists code, message, fields, payloads, errors. repeat split; auto.
  destruct Hp as [->|(_ & Hh & Hpage)]; auto.
Qed.

Lemma answered_of_state s s0 code message fields payloads errors :
  wfile s0 = wfile s -> stdout s0 = stdout s ->
  Forall is_field fields -> (List.length errors <= 1)%nat ->
  (payloads = [] \/ exists data, payloads = [Payload data]) ->
  answered trailer fmt req s
    (answer_state trailer fmt req s0 code message fields payloads errors).
Proof.
  intros Ew Eo Ff Le Hp. split; [reflexivity|].
  exists code, message, fields, payloads, errors.
  unfold answer_state. cbn [wfile stdout]. rewrite Ew, Eo. repeat split; auto.
Qed.

Lemma exchange_do_HEAD s :
  _headers_buffer s = [] ->
  exchange trailer fmt req s (SimpleHTTPRequestHandler.do_HEAD cls fs req s v).
Proof.
  intros Hb.
  destruct (head_answer_do_HEAD s Hb)
    as [Hr|(code & message & fields & payloads & errors & E & Ff & Le & Hp)];
    [now left|].
  right. rewrite E. cbn [fst snd]. split; [reflexivity|].
  apply answered_of_state; auto.
  destruct Hp as [->|(_ & page & ->)]; eauto.
Qed.

Lemma exchange_send_error code message explain s :
  _headers_buffer s = [] ->
  exchange trailer fmt req s
    (BaseHTTPRequestHandler.send_error cls req code message explain s v).
Proof.
  intros Hb. right. rewrite (send_error_run _ _ _ _ Hb). cbv zeta. cbn [fst snd].
  split; [reflexivity|].
  apply answered_of_state; auto using error_fields_are_fields; try (cbn; lia).
  match goal with
  | |- context [error_payloads req ?c ?p] =>
      destruct (error_payloads_cases c p) as [E|[_ E]]; rewrite E
  end; eauto.
Qed.

(** A regular file, served by the inherited [do_GET]. *)
Lemma do_GET_regular_file s data st_mtime :
  _headers_buffer s = [] ->
  fs (translate_path (path s)) = Some (RegularFile data st_mtime) ->
  endswith (translate_path (path s)) "/" = false ->
  SimpleHTTPRequestHandler.do_GET cls fs req s v
  = (Ok tt,
     if SimpleHTTPRequestHandler.not_modified req st_mtime
     then answer_state trailer fmt req s 304 (reason_phrase 304 None)
            [HeaderLine "Server" version_string;
             HeaderLine "Date" (date_time_string None)] [] []
     else answer_state trailer fmt req s 200 (reason_phrase 200 None)
            [HeaderLine "Server" version_string;
             HeaderLine "Date" (date_time_string None);
             HeaderLine "Content-type" (self_guess_type cls (translate_path (path s)));
             HeaderLine "Content-Length" (str (Z.of_nat (List.length data)));
             HeaderLine "Last-Modified" (date_time_string (Some st_mtime))]
            [Payload data] []).
Proof.
  destruct s as [sp b w o]. cbn [_headers_buffer path]. intros -> Hfs Hslash.
  unfold SimpleHTTPRequestHandler.do_GET, SimpleHTTPRequestHandler.send_head,
    SimpleHTTPRequestHandler.send_head_file, os_path.isdir, open_rb.
  unfold bind at 1 2. unfold get_path. cbn [path fst snd].
  rewrite Hfs, Hslash.
  destruct (SimpleHTTPRequestHandler.not_modified req st_mtime);
    unfold bind; rewrite send_response_run; run_headers;
    unfold answer_state, wfile_write; cbn [path _headers_buffer wfile stdout app];
    rewrite <- ?app_assoc; reflexivity.
Qed.

(** A missing file whose name [open] accepts, asked for with GET or HEAD. *)
Lemma send_head_missing s :
  _headers_buffer s = [] ->
  fs (translate_path (path s)) = None ->
  path_error (translate_path (path s)) = false ->
  SimpleHTTPRequestHandler.send_head cls fs req s v
  = (Ok None,
     answer_state trailer fmt req s 404 "File not found"
       (error_fields 404
          (error_message_format 404 "File not found" (snd (error_texts 404))))
       (error_payloads req 404
          (error_message_format 404 "File not found" (snd (error_texts 404))))
       [fmt (error_log_message 404 "File not found")]).
Proof.
  intros Hb Hfs Hok.
  unfold SimpleHTTPRequestHandler.send_head, SimpleHTTPRequestHandler.send_head_file,
    os_path.isdir, open_rb.
  unfold bind at 1. unfold get_path. cbv beta iota. rewrite Hfs, Hok.
  destruct (endswith _ "/"); unfold bind; rewrite (send_error_run _ _ _ _ Hb);
    reflexivity.
Qed.

(** A missing file whose name [open] refuses: [send_head] raises before it
    has written or logged anything. *)
Lemma send_head_refused s :
  fs (translate_path (path s)) = None ->
  path_error (translate_path (path s)) = true ->
  endswith (translate_path (path s)) "/" = false ->
  SimpleHTTPRequestHandler.send_head cls fs req s v = (Raised ValueError, s).
Proof.
  intros Hfs Hbad Hslash.
  unfold SimpleHTTPRequestHandler.send_head, SimpleHTTPRequestHandler.send_head_file,
    os_path.isdir, open_rb.
  unfold bind, get_path. cbv beta iota. now rewrite Hfs, Hbad, Hslash.
Qed.

End AnswerShape.

Lemma answered_same_start trailer fmt req s1 s2 s' :
  wfile s1 = wfile s2 -> stdout s1 = stdout s2 ->
  answered trailer fmt req s1 s' -> answered trailer fmt req s2 s'.
Proof. unfold answered. now intros -> ->. Qed.

Lemma raised_early_same_start {A} s1 s2 (r : Result A * Self) :
  _headers_buffer s1 = _headers_buffer s2 -> wfile s1 = wfile s2 ->
  stdout s1 = stdout s2 ->
  raised_early s1 r -> raised_early s2 r.
Proof. unfold raised_early. now intros -> -> ->. Qed.

Lemma exchange_same_start trailer fmt req s1 s2 r :
  _headers_buffer s1 = _headers_buffer s2 -> wfile s1 = wfile s2 ->
  stdout s1 = stdout s2 ->
  exchange trailer fmt req s1 r -> exchange trailer fmt req s2 r.
Proof.
  intros Eb Ew Eo [Hr|[Hok Ha]].
  - left. eapply raised_early_same_start; eauto.
  - right. split; [exact Hok|]. eapply answered_same_start; eauto.
Qed.

(** ** The two handler classes *)

Section Classes.
Context `{PyLib}.

Lemma accepted_version_set : String.eqb accepted_version "HTTP/0.9" = false.
Proof. reflexivity. Qed.

Lemma do_GET_route_run fs req self v :
  SPAHandler.do_GET fs req self v
  = SPAHandler.super_do_GET fs req
      (mkSelf (SPAHandler.served_path (path self) (SPAHandler.route fs (path self)))
         (_headers_buffer self) (wfile self) (stdout self)) v.
Proof. now rewrite do_GET_route. Qed.

Lemma spa_log_prints req v msg s :
  self_log_message SPAHandler.class req msg s v
  = (Ok tt,
     mkSelf (path s) (_headers_buffer s) (wfile s)
       (stdout s ++ [spa_log_line req msg])).
Proof. reflexivity. Qed.

Ltac run_end_headers Hv :=
  unfold bind;
  repeat (rewrite (send_header_run _ Hv);
          cbn [path _headers_buffer wfile stdout app]);
  rewrite (end_headers_run _ Hv);
  cbn [path _headers_buffer wfile stdout app];
  rewrite <- !app_assoc; reflexivity.

Lemma spa_end_flushes v (Hv : String.eqb v "HTTP/0.9" = false) s :
  self_end_headers SPAHandler.class s v
  = (Ok tt,
     mkSelf (path s) []
       (wfile s ++ [HeaderBlock (_headers_buffer s ++ spa_cors_headers ++ [BlankLine])])
       (stdout s)).
Proof.
  cbn [self_end_headers SPAHandler.class].
  unfold SPAHandler.end_headers, spa_cors_headers. run_end_headers Hv.
Qed.

Lemma debug_log_prints req v msg s :
  self_log_message DebugHTTPRequestHandler.class req msg s v
  = (Ok tt,
     mkSelf (path s) (_headers_buffer s) (wfile s)
       (stdout s ++ [debug_log_line req msg])).
Proof. reflexivity. Qed.

Lemma debug_end_flushes v (Hv : String.eqb v "HTTP/0.9" = false) s :
  self_end_headers DebugHTTPRequestHandler.class s v
  = (Ok tt,
     mkSelf (path s) []
       (wfile s
          ++ [HeaderBlock (_headers_buffer s ++ debug_cors_headers ++ [BlankLine])])
       (stdout s)).
Proof.
  cbn [self_end_headers DebugHTTPRequestHandler.class].
  unfold DebugHTTPRequestHandler.end_headers, debug_cors_headers. run_end_headers Hv.
Qed.

(** [do_OPTIONS] of the debug server, step by step. *)
Lemma do_OPTIONS_run req v (Hv : String.eqb v "HTTP/0.9" = false) s :
  _headers_buffer s = [] ->
  DebugHTTPRequestHandler.do_OPTIONS req s v
  = (Ok tt,
     answer_state debug_cors_headers (debug_log_line req) req s 200
       (reason_phrase 200 None)
       [HeaderLine "Server" version_string;
        HeaderLine "Date" (date_time_string None)] [] []).
Proof.
  destruct s as [p b w o]. cbn [_headers_buffer]. intros ->.
  unfold DebugHTTPRequestHandler.do_OPTIONS, bind.
  rewrite (send_response_run DebugHTTPRequestHandler.class req _ v Hv
             (debug_log_prints req v)).
  change DebugHTTPRequestHandler.end_headers
    with (self_end_headers DebugHTTPRequestHandler.class).
  rewrite (debug_end_flushes v Hv). reflexivity.
Qed.

(** What the SPA server makes of an accepted request. *)
Lemma spa_dispatch_exchange fs req v s :
  String.eqb v "HTTP/0.9" = false -> _headers_buffer s = [] ->
  exchange spa_cors_headers (spa_log_line req) req s
    (BaseHTTPRequestHandler.dispatch SPAHandler.class req (SPAHandler.methods fs req)
       s v).
Proof.
  intros Hv Hb. unfold BaseHTTPRequestHandler.dispatch, SPAHandler.methods.
  destruct (String.eqb (command req) "GET").
  - rewrite do_GET_route_run. unfold SPAHandler.super_do_GET.
    eapply exchange_same_start;
      [| | | apply (exchange_do_GET SPAHandler.class fs req _ _ v Hv
                      (spa_log_prints req v) (spa_end_flushes v Hv))];
      cbn [_headers_buffer wfile stdout]; auto.
  - destruct (String.eqb (command req) "HEAD").
    + now apply (exchange_do_HEAD SPAHandler.class fs req _ _ v Hv
                   (spa_log_prints req v) (spa_end_flushes v Hv)).
    + now apply (exchange_send_error SPAHandler.class req _ _ v Hv
                   (spa_log_prints req v) (spa_end_flushes v Hv)).
Qed.

(** What the debug server makes of an accepted request. *)
Lemma debug_dispatch_exchange fs req v s :
  String.eqb v "HTTP/0.9" = false -> _headers_buffer s = [] ->
  exchange debug_cors_headers (debug_log_line req) req s
    (BaseHTTPRequestHandler.dispatch DebugHTTPRequestHandler.class req
       (DebugHTTPRequestHandler.methods fs req) s v).
Proof.
  intros Hv Hb. unfold BaseHTTPRequestHandler.dispatch, DebugHTTPRequestHandler.methods.
  destruct (String.eqb (command req) "GET").
  - now apply (exchange_do_GET DebugHTTPRequestHandler.class fs req _ _ v Hv
                 (debug_log_prints req v) (debug_end_flushes v Hv)).
  - destruct (String.eqb (command req) "HEAD").
    + now apply (exchange_do_HEAD DebugHTTPRequestHandler.class fs req _ _ v Hv
                   (debug_log_prints req v) (debug_end_flushes v Hv)).
    + destruct (String.eqb (command req) "OPTIONS").
      * right. rewrite (do_OPTIONS_run req v Hv s Hb). cbn [fst snd].
        split; [reflexivity|].
        apply answered_of_state; auto; repeat constructor.
      * now apply (exchange_send_error DebugHTTPRequestHandler.class req _ _ v Hv
                     (debug_log_prints req v) (debug_end_flushes v Hv)).
Qed.

End Classes.

(** ** Responses of the two servers *)

Section Responses.
Context `{PyLib}.

(** C1 (as amended): for a GET request whose path component is not [/],
    whose last segment has no dot and whose resolved path does not exist,
    the request path is rewritten to [/index.html]; when [index.html] is a
    regular file of the served directory, the response is its bytes with
    status 200, unless the request is a conditional one that the file's
    modification time satisfies, and then it is 304 with an empty body. *)
Theorem spa_fallback_serves_index fs req data st_mtime :
  command req = "GET" ->
  pr_path (urlparse (request_target req)) <> "/" ->
  str_in "." (basename (pr_path (urlparse (request_target req)))) = false ->
  os_path.exists_ fs (translate_path (pr_path (urlparse (request_target req)))) = false ->
  fs (os_path_join directory "index.html") = Some (RegularFile data st_mtime) ->
  let self := SPAHandler.handle fs req in
  path self = "/index.html" /\
  if SimpleHTTPRequestHandler.not_modified req st_mtime
  then status (wfile self) = Some 304 /\ body (wfile self) = []
  else status (wfile self) = Some 200 /\ body (wfile self) = data.
Proof.
  intros Hc Hroot Hdot Hmiss Hidx.
  unfold SPAHandler.handle, BaseHTTPRequestHandler.dispatch, SPAHandler.methods.
  rewrite Hc. cbn [String.eqb Ascii.eqb Bool.eqb].
  rewrite do_GET_route_run. unfold SPAHandler.route.
  cbn [new_handler path _headers_buffer wfile stdout].
  apply String.eqb_neq in Hroot. rewrite Hroot, Hdot, Hmiss.
  cbn [negb SPAHandler.served_path]. unfold SPAHandler.super_do_GET.
  rewrite (do_GET_regular_file SPAHandler.class fs req _ _ _ accepted_version_set
             (spa_log_prints req _) (spa_end_flushes _ accepted_version_set)
             (mkSelf "/index.html" [] [] []) data st_mtime eq_refl).
  - destruct (SimpleHTTPRequestHandler.not_modified req st_mtime);
      cbn; rewrite ?app_nil_r; auto.
  - cbn [path]. now rewrite translate_path_index.
  - cbn [path]. rewrite translate_path_index. apply os_path_join_index_not_slash.
Qed.

Lemma exists_false fs p : os_path.exists_ fs p = false -> fs p = None.
Proof. unfold os_path.exists_. now destruct (fs p). Qed.

(** X17: a GET request whose last path segment contains a dot and whose
    resolved file does not exist, under a name that [open] accepts, is not
    rewritten: [self.path] is left as it was, and the response is the 404
    error page, not a document. *)
Theorem spa_missing_asset_not_found fs req :
  command req = "GET" ->
  str_in "." (basename (pr_path (urlparse (request_target req)))) = true ->
  os_path.exists_ fs (translate_path (request_target req)) = false ->
  path_error (translate_path (request_target req)) = false ->
  let self := SPAHandler.handle fs req in
  path self = request_target req /\
  status (wfile self) = Some 404 /\
  body (wfile self)
  = error_message_format 404 "File not found"
      (match responses 404 with Some (_, longmsg) => longmsg | None => "???" end).
Proof.
  intros Hc Hdot Hmiss Hok. apply exists_false in Hmiss. cbv zeta.
  unfold SPAHandler.handle, BaseHTTPRequestHandler.dispatch, SPAHandler.methods.
  rewrite Hc. cbn [String.eqb Ascii.eqb Bool.eqb].
  rewrite do_GET_route_run. unfold SPAHandler.route.
  cbn [new_handler path _headers_buffer wfile stdout]. rewrite Hdot.
  assert (Hs : SPAHandler.served_path (request_target req)
                 (if String.eqb (pr_path (urlparse (request_target req))) "/"
                  then SPAHandler.RootIndex else SPAHandler.StaticAsset)
               = request_target req).
  { destruct (String.eqb_spec (pr_path (urlparse (request_target req))) "/") as [E|_];
      [|reflexivity].
    rewrite E in Hdot. discriminate Hdot. }
  rewrite Hs. clear Hs.
  unfold SPAHandler.super_do_GET, SimpleHTTPRequestHandler.do_GET, bind.
  rewrite (send_head_missing SPAHandler.class fs req _ _ _ accepted_version_set
             (spa_log_prints req _) (spa_end_flushes _ accepted_version_set)
             (mkSelf (request_target req) [] [] []) eq_refl Hmiss Hok).
  unfold ret, answer_state, error_payloads, error_texts. rewrite Hc.
  cbn [snd wfile path app status header_blocks status_of
       String.eqb Ascii.eqb Bool.eqb negb].
  repeat split.
  change (BaseHTTPRequestHandler.has_body 404) with true. cbv iota.
  destruct (responses 404) as [[shortmsg longmsg]|]; cbn [snd];
    match goal with
    | |- context [error_message_format ?c ?m ?e] =>
        destruct (error_message_format c m e)
    end; cbn; now rewrite ?app_nil_r.
Qed.

Lemma served_path_index fs :
  SPAHandler.served_path "/index.html" (SPAHandler.route fs "/index.html")
  = "/index.html".
Proof. now destruct (SPAHandler.route fs "/index.html"). Qed.

Lemma route_root fs : SPAHandler.route fs "/" = SPAHandler.RootIndex.
Proof. unfold SPAHandler.route. now rewrite urlparse_root. Qed.

(** C3: whatever the served directory holds, the SPA server answers a GET
    for [/] with the same response, and so the same body bytes, as a GET for
    [/index.html]. *)
Theorem spa_root_same_as_index fs rl1 ca1 rl2 ca2 ims :
  let r1 := SPAHandler.handle fs (mkRequest "GET" "/" rl1 ca1 ims) in
  let r2 := SPAHandler.handle fs (mkRequest "GET" "/index.html" rl2 ca2 ims) in
  body (wfile r1) = body (wfile r2) /\ wfile r1 = wfile r2.
Proof.
  cbv zeta.
  unfold SPAHandler.handle, BaseHTTPRequestHandler.dispatch, SPAHandler.methods.
  cbn [command String.eqb Ascii.eqb Bool.eqb].
  rewrite !do_GET_route_run.
  cbn [new_handler request_target path _headers_buffer wfile stdout].
  rewrite route_root, served_path_index. cbn [SPAHandler.served_path].
  match goal with |- ?A /\ ?B => cut B; [intros ->; split; reflexivity|] end.
  unfold_handlers. unfold SimpleHTTPRequestHandler.not_modified.
  cbv beta iota zeta delta [if_modified_since].
  repeat (split_test; cbv beta iota); reflexivity.
Qed.

(** A response that is not empty starts with its header block, and that
    carries the CORS header, when the class adds it. *)
Lemma exchange_cors_response trailer fmt req s r :
  exchange trailer fmt req s r -> wfile s = [] -> cors trailer ->
  wfile (snd r) = [] \/ cors_response (wfile (snd r)).
Proof.
  intros [(_ & _ & W & _)
         |(_ & _ & code & message & fields & payloads & errors & W & _ & Hp & _)]
    Hs Hc.
  - left. now rewrite W.
  - right. rewrite W, Hs. cbn [app]. do 2 eexists. split; [reflexivity|]. split.
    + unfold cors, has_header in *. right. rewrite !in_app_iff. auto.
    + destruct Hp as [->|[data ->]]; reflexivity.
Qed.

(** The same for a request on the wire, for a class that logs one line per
    message and closes its header blocks with [trailer]. *)
Lemma handle_one_request_cors cls methods trailer fmt conn :
  (forall req v msg s,
     self_log_message cls req msg s v
     = (Ok tt,
        mkSelf (path s) (_headers_buffer s) (wfile s) (stdout s ++ [fmt req msg]))) ->
  (forall v, String.eqb v "HTTP/0.9" = false -> forall s,
     self_end_headers cls s v
     = (Ok tt,
        mkSelf (path s) []
          (wfile s ++ [HeaderBlock (_headers_buffer s ++ trailer ++ [BlankLine])])
          (stdout s))) ->
  (forall req v s, String.eqb v "HTTP/0.9" = false -> _headers_buffer s = [] ->
     exchange trailer (fmt req) req s
       (BaseHTTPRequestHandler.dispatch cls req (methods req) s v)) ->
  cors trailer ->
  BaseHTTPRequestHandler.request_version_of conn <> "HTTP/0.9" ->
  let w := wfile (snd (BaseHTTPRequestHandler.handle_one_request cls methods conn)) in
  w = [] \/ cors_response w.
Proof.
  intros Hlog Hend Hdisp Hc. cbv zeta.
  unfold BaseHTTPRequestHandler.request_version_of,
    BaseHTTPRequestHandler.handle_one_request.
  destruct (65536 <? _).
  - intros _.
    eapply exchange_cors_response;
      [apply (exchange_send_error cls _ trailer _ EmptyString eq_refl
                (Hlog _ EmptyString) (Hend EmptyString eq_refl))| |exact Hc];
      reflexivity.
  - destruct (raw_requestline conn) as [|c line]; [now left|].
    destruct (BaseHTTPRequestHandler.parse_request conn)
      as [v req|v req code message explain|]; [| |now left];
      intros Hv; apply String.eqb_neq in Hv.
    + eapply exchange_cors_response; [apply Hdisp| |exact Hc]; auto.
    + eapply exchange_cors_response;
        [apply (exchange_send_error cls _ trailer _ v Hv (Hlog _ v) (Hend v Hv))|
        |exact Hc]; reflexivity.
Qed.

(** C4 (as amended): whatever either server writes for a request while its
    request version is not [HTTP/0.9], for any request line, method, path
    and file system, starts with the one header block of the response, and
    that block carries [Access-Control-Allow-Origin: *].  This covers the
    error responses 400, 404, 414, 431 and 501 as well as 200, 301 and
    304. *)
Theorem every_response_allows_any_origin fs conn :
  BaseHTTPRequestHandler.request_version_of conn <> "HTTP/0.9" ->
  let s := wfile (SPAHandler.handle_one_request fs conn) in
  let d := wfile (DebugHTTPRequestHandler.handle_one_request fs conn) in
  (s = [] \/ cors_response s) /\ (d = [] \/ cors_response d).
Proof.
  intros Hv. cbv zeta. split.
  - apply (handle_one_request_cors SPAHandler.class (SPAHandler.methods fs)
             spa_cors_headers spa_log_line conn);
      [ intros req v msg s; apply spa_log_prints
      | intros v Hv' s; now apply spa_end_flushes
      | intros req v s Hv' Hb; now apply spa_dispatch_exchange
      | unfold cors, has_header, spa_cors_headers; cbn; auto
      | exact Hv ].
  - apply (handle_one_request_cors DebugHTTPRequestHandler.class
             (DebugHTTPRequestHandler.methods fs)
             debug_cors_headers (@debug_log_line _) conn);
      [ intros req v msg s; apply debug_log_prints
      | intros v Hv' s; now apply debug_end_flushes
      | intros req v s Hv' Hb; now apply debug_dispatch_exchange
      | unfold cors, has_header, debug_cors_headers; cbn; auto
      | exact Hv ].
Qed.

(** C8: an OPTIONS request to the debug server is answered with status 200,
    the CORS headers and no body. *)
Theorem debug_options_preflight fs req :
  command req = "OPTIONS" ->
  let w := wfile (DebugHTTPRequestHandler.handle fs req) in
  status w = Some 200 /\
  body w = [] /\
  exists lines,
    w = [HeaderBlock lines] /\
    has_header "Access-Control-Allow-Origin" "*" lines /\
    has_header "Access-Control-Allow-Methods" "GET, POST, PUT, DELETE, OPTIONS" lines /\
    has_header "Access-Control-Allow-Headers" "Content-Type, Authorization" lines /\
    has_header "Cache-Control" "no-cache, no-store, must-revalidate" lines.
Proof.
  intros Hc. cbv zeta.
  unfold DebugHTTPRequestHandler.handle, BaseHTTPRequestHandler.dispatch,
    DebugHTTPRequestHandler.methods.
  rewrite Hc. cbn [String.eqb Ascii.eqb Bool.eqb].
  rewrite (do_OPTIONS_run req _ accepted_version_set (new_handler req) eq_refl).
  cbn [snd]. unfold answer_state. cbn [wfile new_handler app].
  repeat split. eexists. split; [reflexivity|].
  unfold has_header, debug_cors_headers. cbn. tauto.
Qed.

End Responses.
(** ** Log colours of the debug server *)

Lemma prefix_append n : forall b c,
  String.prefix n b = true -> String.prefix n (b ++ c) = true.
Proof.
  induction n as [|x n IH]; intros b c; [now destruct (b ++ c)|].
  destruct b as [|y b]; cbn; [discriminate|].
  destruct (ascii_dec x y); [apply IH | discriminate].
Qed.

Lemma str_in_append_r n b c : str_in n b = true -> str_in n (b ++ c) = true.
Proof.
  induction b as [|y b IH]; cbn [str_in append].
  - destruct (String.prefix n EmptyString) eqn:E; [|discriminate].
    intros _. destruct n; [|discriminate E].
    destruct c; reflexivity.
  - destruct (String.prefix n (String y b)) eqn:E.
    + intros _. apply (prefix_append _ _ c) in E. cbn [append] in E. now rewrite E.
    + intros Hb. rewrite (IH Hb). apply Tauto.if_same.
Qed.

Lemma str_in_append_l n a b : str_in n b = true -> str_in n (a ++ b) = true.
Proof.
  intros Hb. induction a as [|x a IH]; cbn [str_in append]; [exact Hb|].
  rewrite IH. apply Tauto.if_same.
Qed.

(** Whatever the status, a request line that contains the digits 200
    makes the request-log line green. *)
Lemma log_color_request_line_200 rl code :
  str_in "200" rl = true ->
  DebugHTTPRequestHandler.log_color
    (BaseHTTPRequestHandler.dquote ++ rl ++ BaseHTTPRequestHandler.dquote
       ++ " " ++ str code ++ " " ++ "-")
  = DebugHTTPRequestHandler.green.
Proof.
  intros Hrl. unfold DebugHTTPRequestHandler.log_color.
  now rewrite str_in_append_l by now apply str_in_append_r.
Qed.

(** C7 (the code departs from it): the colour of a log line is chosen by
    searching the whole formatted message, request line included, for the
    digits of a status.  A GET for the missing file [/200.css] is answered
    404, and its request-log line is printed in green, not red. *)
Theorem log_color_of_missing_200_css_is_green :
  let req := Model.get "/200.css" in
  let self := @DebugHTTPRequestHandler.handle Model.lib Model.site req in
  let message :=
    BaseHTTPRequestHandler.dquote ++ requestline req
      ++ BaseHTTPRequestHandler.dquote ++ " 404 -" in
  status (wfile self) = Some 404 /\
  DebugHTTPRequestHandler.log_color message = DebugHTTPRequestHandler.green /\
  DebugHTTPRequestHandler.log_color message <> DebugHTTPRequestHandler.red /\
  last (stdout self) EmptyString
  = DebugHTTPRequestHandler.green ++ "[2026-11-03 12:00:00] 127.0.0.1 - " ++ message
      ++ DebugHTTPRequestHandler.reset_color.
Proof. cbv zeta. repeat split; try reflexivity. discriminate. Qed.

(** ** Command line and port selection *)

Section CommandLine.
Context `{PyLib}.

Lemma socket_bind_cases net p :
  (socket_bind net p = None /\ 0 <= p <= 65535 /\ can_bind net p = true) \/
  (socket_bind net p = Some OSError /\ 0 <= p <= 65535 /\ can_bind net p = false) \/
  (socket_bind net p = Some OverflowError /\ (p < 0 \/ 65535 < p)).
Proof.
  unfold socket_bind.
  destruct (p <? 0) eqn:L; destruct (65535 <? p) eqn:U; cbn [orb];
    destruct (can_bind net p) eqn:N; try (right; right; split; [reflexivity | lia]);
    [left | right; left]; (split; [reflexivity | split; [lia | reflexivity]]).
Qed.

(** What the scan of [n] ports from [p] returns. *)
Lemma find_available_port_loop_cases net n : forall p out,
  0 <= p ->
  (exists q, p <= q < p + Z.of_nat n /\ available net q /\
     (forall q', p <= q' < q -> socket_bind net q' = Some OSError) /\
     debug_server.find_available_port_loop net p n out = (Continue (Some q), out)) \/
  ((forall q', p <= q' < p + Z.of_nat n -> ~ available net q') /\
   (debug_server.find_available_port_loop net p n out = (Continue None, out) \/
    debug_server.find_available_port_loop net p n out
    = (Stop (Uncaught OverflowError), out))).
Proof.
  induction n as [|n IH]; intros p out Hp.
  - right. split; [lia | left; reflexivity].
  - cbn [debug_server.find_available_port_loop].
    unfold pbind, debug_server.is_port_available.
    destruct (socket_bind_cases net p) as [(E & R & _)|[(E & R & _)|(E & R)]];
      rewrite E; cbn [pret raise].
    + left. exists p. unfold available. repeat split; try lia; auto.
    + destruct (IH (p + 1) out) as [(q & Hq & Ha & Hb & Hr)|(Hn & Hr)]; [lia| |].
      * left. exists q. repeat split; try lia; auto.
        intros q' Hq'. destruct (Z.eq_dec q' p) as [->|]; [exact E | apply Hb; lia].
      * right. split; [|exact Hr].
        intros q' Hq'. destruct (Z.eq_dec q' p) as [->|].
        -- unfold available. congruence.
        -- apply Hn. lia.
    + right. split; [|right; reflexivity].
      intros q' Hq'. unfold available.
      destruct (socket_bind_cases net q') as [(_ & R' & _)|[(E' & _)|(E' & _)]];
        [lia | congruence | congruence].
Qed.

Lemma isdir_exists fs d : os_path.isdir fs d = true -> os_path.exists_ fs d = true.
Proof. unfold os_path.isdir, os_path.exists_. now destruct (fs d). Qed.

(** [main] with an occupied port, given on the command line or by default,
    and a directory to serve, comes down to the scan. *)
Lemma main_occupied_outcome net fs argv p :
  match argv with _ :: arg1 :: _ => py_int arg1 = Some p | _ => p = 8080 end ->
  os_path.isdir fs (match argv with _ :: _ :: d :: _ => d | _ => "." end) = true ->
  socket_bind net p = Some OSError ->
  exists out,
    outcome (run (debug_server.main net fs argv))
    = match debug_server.find_available_port net p 100 out with
      | (Continue available_port, _) =>
          if debug_server.truthy available_port
          then
            let q := match available_port with Some q => q | None => p end in
            match socket_bind net q with
            | None =>
                Serving (getsockname net q)
                  (match argv with _ :: _ :: d :: _ => d | _ => "." end)
            | Some _ => SysExit 0
            end
          else SysExit 1
      | (Stop o, _) => o
      end.
Proof.
  intros Hint Hdir Hbusy.
  exists ["⚠️  警告: 端口 " ++ str p ++ " 已被占用，正在寻找可用端口..."].
  unfold run, debug_server.main, pbind, debug_server.os_chdir.
  destruct argv as [|prog [|arg1 [|d rest]]];
    try rewrite Hint; try subst p; cbn [pret];
    try rewrite (isdir_exists _ _ Hdir); cbn [negb pret];
    unfold debug_server.is_port_available; rewrite Hbusy;
    cbn [pret negb pprint app];
    (destruct (debug_server.find_available_port _ _ _ _) as [[res|o] out];
     [destruct (debug_server.truthy res); cbn [pprint pret sys_exit];
      [rewrite Hdir; cbn [pret];
       match goal with
       | |- context [match socket_bind net ?q with _ => _ end] =>
           destruct (socket_bind net q)
       end|]|];
     reflexivity).
Qed.

(** C5: when the requested port (the first argument, 8080 without one) is
    occupied, the debug server tries the 100 ports from the requested one on
    and serves on the first that can be bound; the process ends with a
    nonzero exit status exactly when none of them can. *)
Theorem debug_port_scan net fs argv p :
  match argv with _ :: arg1 :: _ => py_int arg1 = Some p | _ => p = 8080 end ->
  os_path.isdir fs (match argv with _ :: _ :: d :: _ => d | _ => "." end) = true ->
  socket_bind net p = Some OSError ->
  let r := run (debug_server.main net fs argv) in
  let directory := match argv with _ :: _ :: d :: _ => d | _ => "." end in
  ((exists q, p <= q < p + 100 /\ available net q /\
      (forall q', p <= q' < q -> ~ available net q') /\
      outcome r = Serving q directory) \/
   ((forall q, p <= q < p + 100 -> ~ available net q) /\ exits_nonzero r)) /\
  (exits_nonzero r <-> forall q, p <= q < p + 100 -> ~ available net q).
Proof.
  intros Hint Hdir Hbusy.
  assert (Hp : 0 <= p).
  { destruct (socket_bind_cases net p) as [(E & _)|[(_ & R & _)|(E & _)]];
      [congruence | lia | congruence]. }
  destruct (main_occupied_outcome net fs argv p Hint Hdir Hbusy) as [out Hout].
  cbv zeta. unfold exits_nonzero.
  set (r := run _) in *.
  set (directory := match argv with _ :: _ :: d :: _ => d | _ => "." end) in *.
  assert (Hcases :
    (exists q, p <= q < p + 100 /\ available net q /\
       (forall q', p <= q' < q -> ~ available net q') /\
       outcome r = Serving q directory) \/
    ((forall q, p <= q < p + 100 -> ~ available net q) /\
     exists code, exit_status (outcome r) = Some code /\ code <> 0)).
  { rewrite Hout. unfold debug_server.find_available_port.
    destruct (find_available_port_loop_cases net (Z.to_nat 100) p out Hp)
      as [(q & Hq & Ha & Hb & Hr)|(Hn & [Hr|Hr])]; rewrite Hr.
    - left. exists q. split; [exact Hq|]. split; [exact Ha|]. split.
      + intros q' Hq'. unfold available. rewrite (Hb q' Hq'). discriminate.
      + assert (q <> p) by (unfold available in Ha; congruence).
        assert (Hz : (q =? 0) = false) by (apply Z.eqb_neq; lia).
        unfold debug_server.truthy, getsockname. rewrite Hz. cbv zeta. cbn [negb].
        unfold available in Ha. now rewrite Ha.
    - right. split; [exact Hn|]. exists 1. split; [reflexivity | lia].
    - right. split; [exact Hn|]. exists 1. split; [reflexivity | lia]. }
  split; [exact Hcases|].
  destruct Hcases as [(q & Hq & Ha & _ & Ho)|(Hn & Hx)].
  - split.
    + intros (c & Hc & _). rewrite Ho in Hc. discriminate.
    + intros Hn. exfalso. now apply (Hn q).
  - tauto.
Qed.

(** C6: started with a first argument that [int] rejects, the debug server
    prints its error message and calls [sys.exit(1)]; the SPA server lets
    the [ValueError] escape, so the interpreter prints the traceback and
    exits with status 1.  Neither starts serving. *)
Theorem non_numeric_port_is_fatal net fs prog arg1 rest :
  py_int arg1 = None ->
  let d := run (debug_server.main net fs (prog :: arg1 :: rest)) in
  let s := run (spa_server.main net (prog :: arg1 :: rest)) in
  (d = mkRun ["❌ 错误: 端口号必须是数字"] (SysExit 1) /\
   reports_error d /\ exits_nonzero d) /\
  (s = mkRun [] (Uncaught ValueError) /\
   reports_error s /\ exits_nonzero s).
Proof.
  intros Hint. cbv zeta.
  unfold run, debug_server.main, spa_server.main, pbind. rewrite Hint.
  cbn [pprint sys_exit raise app].
  repeat split; try discriminate; exists 1; (split; [reflexivity | lia]).
Qed.

End CommandLine.

(** ** Query strings in the concrete library *)

Lemma append_nil_r (s : string) : s ++ EmptyString = s.
Proof. induction s as [|a s IH]; cbn; [reflexivity | now rewrite IH]. Qed.

Lemma str_in_char_cons c a t :
  str_in (String c EmptyString) (String a t)
  = Ascii.eqb a c || str_in (String c EmptyString) t.
Proof.
  cbn [str_in String.prefix].
  destruct (ascii_dec c a) as [->|Hne].
  - rewrite Ascii.eqb_refl. now destruct t.
  - apply not_eq_sym, Ascii.eqb_neq in Hne. now rewrite Hne.
Qed.

Lemma split1_append c t : forall s,
  str_in (String c EmptyString) t = false ->
  split1 c (t ++ s)
  = (t ++ fst (split1 c s), snd (split1 c s)).
Proof.
  induction t as [|a t IH]; intros s Ht.
  - cbn. now destruct (split1 c s).
  - rewrite str_in_char_cons in Ht. apply orb_false_elim in Ht as [Ha Ht].
    cbn [append split1]. rewrite Ha, (IH s Ht). reflexivity.
Qed.

Lemma split1_absent c t :
  str_in (String c EmptyString) t = false -> split1 c t = (t, EmptyString).
Proof.
  intros Ht. rewrite <- (append_nil_r t) at 1.
  rewrite (split1_append c t EmptyString Ht). cbn. now rewrite append_nil_r.
Qed.

(** In the concrete library a query string leaves the path component, and
    with it the branch of [do_GET], unchanged. *)
Lemma model_route_ignores_query fs t q :
  str_in "?" t = false -> str_in "#" t = false ->
  pr_path (Model.urlparse (t ++ "?" ++ q)) = pr_path (Model.urlparse t) /\
  @SPAHandler.route Model.lib fs (t ++ "?" ++ q) = @SPAHandler.route Model.lib fs t.
Proof.
  intros Hq Hf.
  assert (E : pr_path (Model.urlparse (t ++ "?" ++ q)) = pr_path (Model.urlparse t)).
  { unfold Model.urlparse, Model.urlsplit.
    rewrite (split1_append "#" t ("?" ++ q) Hf), (split1_absent "#" t Hf),
      (split1_absent "?" t Hq).
    cbn [append split1 Ascii.eqb Bool.eqb].
    destruct (split1 "#" q) as [l r]. cbn [fst snd].
    rewrite (split1_append "?" t (String "?" l) Hq).
    cbn [split1 Ascii.eqb Bool.eqb fst snd sr_path].
    rewrite append_nil_r. now destruct (Model.splitparams t). }
  split; [exact E|].
  unfold SPAHandler.route. cbn [urlparse Model.lib]. now rewrite E.
Qed.

(** ** The theorems at work on the concrete site *)

(** C1 as first stated fails on a conditional request: every condition of
    the claim holds, and the response is 304 with an empty body rather than
    200 with the index document. *)
Lemma spa_fallback_conditional_get_not_modified :
  let req := Model.conditional_get in
  let self := @SPAHandler.handle Model.lib Model.site req in
  (command req = "GET" /\
   pr_path (Model.urlparse (request_target req)) <> "/" /\
   str_in "." (basename (pr_path (Model.urlparse (request_target req)))) = false /\
   os_path.exists_ Model.site
     (Model.translate_path (pr_path (Model.urlparse (request_target req)))) = false /\
   Model.site (os_path_join Model.directory "index.html")
   = Some (RegularFile Model.index_html 1000)) /\
  status (wfile self) = Some 304 /\
  body (wfile self) = [] /\
  ~ (status (wfile self) = Some 200 /\ body (wfile self) = Model.index_html).
Proof.
  cbv zeta. repeat split; try reflexivity; try discriminate.
  intros [E _]. vm_compute in E. discriminate E.
Qed.

(** The fallback on the concrete site: an unconditional GET for
    [/app/settings] is answered with the index document. *)
Lemma spa_fallback_serves_index_witness :
  let req := Model.get "/app/settings" in
  (command req = "GET" /\
   pr_path (Model.urlparse (request_target req)) <> "/" /\
   str_in "." (basename (pr_path (Model.urlparse (request_target req)))) = false /\
   os_path.exists_ Model.site
     (Model.translate_path (pr_path (Model.urlparse (request_target req)))) = false /\
   Model.site (os_path_join Model.directory "index.html")
   = Some (RegularFile Model.index_html 1000)) /\
  let self := @SPAHandler.handle Model.lib Model.site req in
  path self = "/index.html" /\
  status (wfile self) = Some 200 /\ body (wfile self) = Model.index_html.
Proof.
  cbv zeta. split.
  - repeat split; try reflexivity; discriminate.
  - apply (@spa_fallback_serves_index Model.lib Model.site
             (Model.get "/app/settings") Model.index_html 1000);
      try reflexivity; discriminate.
Defined.

(** [/app/settings?tab=profile] takes the branch of [/app/settings]. *)
Lemma routing_depends_on_path_component_only_witness :
  let self := new_handler (Model.get "/app/settings") in
  let t := "/app/settings?tab=profile" in
  pr_path (Model.urlparse t) = pr_path (Model.urlparse (path self)) /\
  let r := @SPAHandler.route Model.lib Model.site t in
  r = @SPAHandler.route Model.lib Model.site (path self) /\
  @SPAHandler.do_GET Model.lib Model.site (Model.get "/app/settings") self
  = @SPAHandler.super_do_GET Model.lib Model.site (Model.get "/app/settings")
      (mkSelf (SPAHandler.served_path (path self) r)
         (_headers_buffer self) (wfile self) (stdout self)) /\
  SPAHandler.served_path (path self) r = "/index.html" /\
  str_in "?" (SPAHandler.served_path (path self) r) = false.
Proof.
  cbv zeta. split; [reflexivity|].
  exact (@routing_depends_on_path_component_only Model.lib Model.site
           (Model.get "/app/settings")
           (new_handler (Model.get "/app/settings"))
           "/app/settings?tab=profile" eq_refl).
Defined.

(** A preflight request for [/api]. *)
Lemma debug_options_preflight_witness :
  let req := Model.options "/api" in
  command req = "OPTIONS" /\
  let w := wfile (@DebugHTTPRequestHandler.handle Model.lib Model.site req) in
  status w = Some 200 /\
  body w = [] /\
  exists lines,
    w = [HeaderBlock lines] /\
    has_header "Access-Control-Allow-Origin" "*" lines /\
    has_header "Access-Control-Allow-Methods" "GET, POST, PUT, DELETE, OPTIONS" lines /\
    has_header "Access-Control-Allow-Headers" "Content-Type, Authorization" lines /\
    has_header "Cache-Control" "no-cache, no-store, must-revalidate" lines.
Proof.
  cbv zeta. split; [reflexivity|].
  exact (@debug_options_preflight Model.lib Model.site (Model.options "/api") eq_refl).
Defined.

(** Asked for port 8080 while 8080 to 8082 are taken, the debug server
    serves on 8083. *)
Lemma debug_port_scan_witness :
  let argv := ["debug_server.py"; "8080"] in
  let r := run (@debug_server.main Model.lib busy_until_8083 Model.site argv) in
  (Model.py_int "8080" = Some 8080 /\
   os_path.isdir Model.site "." = true /\
   socket_bind busy_until_8083 8080 = Some OSError) /\
  outcome r = Serving 8083 "." /\
  ((exists q, 8080 <= q < 8080 + 100 /\ available busy_until_8083 q /\
      (forall q', 8080 <= q' < q -> ~ available busy_until_8083 q') /\
      outcome r = Serving q ".") \/
   ((forall q, 8080 <= q < 8080 + 100 -> ~ available busy_until_8083 q) /\
    exits_nonzero r)) /\
  (exits_nonzero r <->
   forall q, 8080 <= q < 8080 + 100 -> ~ available busy_until_8083 q).
Proof.
  cbv zeta. split; [repeat split; reflexivity|]. split; [reflexivity|].
  exact (@debug_port_scan Model.lib busy_until_8083 Model.site
           ["debug_server.py"; "8080"] 8080 eq_refl eq_refl eq_refl).
Defined.

(** Both programs started with the port argument [80a]. *)
Lemma non_numeric_port_is_fatal_witness :
  let argv := ["server.py"; "80a"] in
  let d := run (@debug_server.main Model.lib busy_until_8083 Model.site argv) in
  let s := run (@spa_server.main Model.lib busy_until_8083 argv) in
  Model.py_int "80a" = None /\
  (d = mkRun ["❌ 错误: 端口号必须是数字"] (SysExit 1) /\
   reports_error d /\ exits_nonzero d) /\
  (s = mkRun [] (Uncaught ValueError) /\
   reports_error s /\ exits_nonzero s).
Proof.
  cbv zeta. split; [reflexivity|].
  exact (@non_numeric_port_is_fatal Model.lib busy_until_8083 Model.site
           "server.py" "80a" [] eq_refl).
Defined.


(** * Further properties of the two programs *)

Section Exchanges.
Context `{PyLib}.

Lemma exchange_of_handle trailer fmt req r :
  exchange trailer fmt req (new_handler req) r ->
  (wfile (snd r) = [] /\ stdout (snd r) = [] /\ _headers_buffer (snd r) = []) \/
  answered trailer fmt req (new_handler req) (snd r).
Proof.
  intros [(_ & Hb & Hw & Ho)|(_ & Ha)]; [left | now right].
  now rewrite Hb, Hw, Ho.
Qed.

(** X1: with an accepted request the SPA server either raises before it
    has written or logged anything, or answers with exactly one header
    block, which starts with the status line and ends with the three CORS
    headers of [end_headers] and the blank line, followed by at most one
    piece of body data; the last line it logs is then the marker, the client
    address and the request line with the status code just sent. *)
Theorem spa_exchange_shape fs req :
  let self := SPAHandler.handle fs req in
  (wfile self = [] /\ stdout self = [] /\ _headers_buffer self = []) \/
  answered spa_cors_headers (spa_log_line req) req (new_handler req) self.
Proof.
  cbv zeta. unfold SPAHandler.handle.
  apply exchange_of_handle, spa_dispatch_exchange; reflexivity.
Qed.

(** X2: with an accepted request the debug server either raises before it
    has written or logged anything, or answers with exactly one header
    block, which starts with the status line and ends with the three CORS
    headers, the cache-disabling header and the blank line, followed by at
    most one piece of body data; the last line it logs is then the coloured,
    time-stamped request line with the status code just sent. *)
Theorem debug_exchange_shape fs req :
  let self := DebugHTTPRequestHandler.handle fs req in
  (wfile self = [] /\ stdout self = [] /\ _headers_buffer self = []) \/
  answered debug_cors_headers (debug_log_line req) req (new_handler req) self.
Proof.
  cbv zeta. unfold DebugHTTPRequestHandler.handle.
  apply exchange_of_handle, debug_dispatch_exchange; reflexivity.
Qed.

Lemma head_only cls fs req trailer fmt v s :
  command req = "HEAD" -> wfile s = [] ->
  raised_early s (SimpleHTTPRequestHandler.do_HEAD cls fs req s v) \/
  (exists code message fields payloads errors,
     SimpleHTTPRequestHandler.do_HEAD cls fs req s v
     = (Ok tt, answer_state trailer fmt req s code message fields payloads errors) /\
     Forall is_field fields /\ (List.length errors <= 1)%nat /\
     (payloads = [] \/
      (command req <> "HEAD" /\ exists page, payloads = [Payload page]))) ->
  let w := wfile (snd (SimpleHTTPRequestHandler.do_HEAD cls fs req s v)) in
  w = [] \/ exists lines, w = [HeaderBlock lines].
Proof.
  intros Hc Hs [(_ & _ & Hw & _)|(code & message & fields & payloads & errors & E & _ & _ & Hp)];
    cbv zeta.
  - left. now rewrite Hw.
  - right. rewrite E. destruct Hp as [->|(Hn & _)]; [|contradiction].
    unfold answer_state. cbn [snd wfile]. rewrite Hs. eexists. reflexivity.
Qed.

(** X3: an accepted HEAD request never gets a body, from either server:
    what is written is the header block alone, also for errors and
    directory listings, or nothing when the handler raised. *)
Theorem head_request_has_no_body fs req :
  command req = "HEAD" ->
  let s := wfile (SPAHandler.handle fs req) in
  let d := wfile (DebugHTTPRequestHandler.handle fs req) in
  (s = [] \/ exists lines, s = [HeaderBlock lines]) /\
  (d = [] \/ exists lines, d = [HeaderBlock lines]).
Proof.
  intros Hc. cbv zeta.
  unfold SPAHandler.handle, DebugHTTPRequestHandler.handle,
    BaseHTTPRequestHandler.dispatch, SPAHandler.methods,
    DebugHTTPRequestHandler.methods.
  rewrite Hc. cbn [String.eqb Ascii.eqb Bool.eqb].
  split.
  - apply (head_only SPAHandler.class fs req spa_cors_headers (spa_log_line req));
      [exact Hc | reflexivity|].
    now apply (head_answer_do_HEAD SPAHandler.class fs req _ _ _ accepted_version_set
                 (spa_log_prints req _) (spa_end_flushes _ accepted_version_set)).
  - apply (head_only DebugHTTPRequestHandler.class fs req debug_cors_headers
             (debug_log_line req)); [exact Hc | reflexivity|].
    now apply (head_answer_do_HEAD DebugHTTPRequestHandler.class fs req _ _ _
                 accepted_version_set (debug_log_prints req _)
                 (debug_end_flushes _ accepted_version_set)).
Qed.

(** X4: the SPA server implements GET and HEAD only, the debug server GET,
    HEAD and OPTIONS: every other method is answered 501 with [self.path]
    untouched, also POST and OPTIONS, which the SPA server's own
    [Access-Control-Allow-Methods] header goes on to advertise. *)
Theorem other_methods_not_implemented fs req :
  command req <> "GET" -> command req <> "HEAD" ->
  (status (wfile (SPAHandler.handle fs req)) = Some 501 /\
   path (SPAHandler.handle fs req) = request_target req /\
   exists lines,
     header_blocks (wfile (SPAHandler.handle fs req)) = [lines] /\
     has_header "Access-Control-Allow-Methods" "GET, POST, OPTIONS" lines) /\
  (command req <> "OPTIONS" ->
   status (wfile (DebugHTTPRequestHandler.handle fs req)) = Some 501 /\
   path (DebugHTTPRequestHandler.handle fs req) = request_target req).
Proof.
  intros Hg Hh.
  apply String.eqb_neq in Hg. apply String.eqb_neq in Hh.
  unfold SPAHandler.handle, DebugHTTPRequestHandler.handle,
    BaseHTTPRequestHandler.dispatch, SPAHandler.methods,
    DebugHTTPRequestHandler.methods.
  rewrite Hg, Hh. split.
  - rewrite (send_error_run SPAHandler.class req _ _ _ accepted_version_set
               (spa_log_prints req _) (spa_end_flushes _ accepted_version_set)
               _ _ _ (new_handler req) eq_refl).
    cbv zeta. cbn [snd]. unfold answer_state.
    cbn [wfile path new_handler app status header_blocks status_of].
    split; [reflexivity|]. split; [reflexivity|].
    destruct (error_payloads _ _ _) as [|[l|d] ps] eqn:E.
    + eexists. split; [reflexivity|].
      unfold has_header, spa_cors_headers. right. rewrite !in_app_iff. cbn. tauto.
    + exfalso. destruct (error_payloads_cases req 501
                 (error_message_format 501
                    ("Unsupported method (" ++ py_repr (command req) ++ ")")
                    (snd (error_texts 501)))) as [E'|[_ E']];
        rewrite E' in E; discriminate E.
    + destruct (error_payloads_cases req 501
                 (error_message_format 501
                    ("Unsupported method (" ++ py_repr (command req) ++ ")")
                    (snd (error_texts 501)))) as [E'|[_ E']];
        rewrite E' in E; [discriminate E|]. injection E as _ <-.
      eexists. split; [reflexivity|].
      unfold has_header, spa_cors_headers. right. rewrite !in_app_iff. cbn. tauto.
  - intros Ho. apply String.eqb_neq in Ho. rewrite Ho.
    rewrite (send_error_run DebugHTTPRequestHandler.class req _ _ _ accepted_version_set
               (debug_log_prints req _) (debug_end_flushes _ accepted_version_set)
               _ _ _ (new_handler req) eq_refl).
    cbv zeta. cbn [snd]. unfold answer_state.
    cbn [wfile path new_handler app status header_blocks status_of].
    split; reflexivity.
Qed.

(** X5: the route fallback is for GET alone.  A HEAD request is handled by
    the inherited [do_HEAD]: for a path that does not exist, under a name
    that [open] accepts, the answer is 404 without a body, and [self.path]
    is not rewritten. *)
Theorem spa_head_is_not_rewritten fs req :
  command req = "HEAD" ->
  os_path.exists_ fs (translate_path (request_target req)) = false ->
  path_error (translate_path (request_target req)) = false ->
  let self := SPAHandler.handle fs req in
  path self = request_target req /\
  status (wfile self) = Some 404 /\
  body (wfile self) = [].
Proof.
  intros Hc Hmiss Hok. apply exists_false in Hmiss. cbv zeta.
  unfold SPAHandler.handle, BaseHTTPRequestHandler.dispatch, SPAHandler.methods.
  rewrite Hc. cbn [String.eqb Ascii.eqb Bool.eqb].
  unfold SimpleHTTPRequestHandler.do_HEAD, bind.
  rewrite (send_head_missing SPAHandler.class fs req _ _ _ accepted_version_set
             (spa_log_prints req _) (spa_end_flushes _ accepted_version_set)
             (new_handler req) eq_refl Hmiss Hok).
  unfold ret, answer_state, error_payloads. rewrite Hc.
  cbn [snd wfile path new_handler app status header_blocks status_of
       String.eqb Ascii.eqb Bool.eqb negb].
  repeat split.
  destruct (BaseHTTPRequestHandler.has_body 404); [|reflexivity].
  now destruct (error_message_format _ _ _).
Qed.

(** X6: when the request is rewritten (the root, or a missing path without
    a dot) and the served directory has no [index.html], the answer is the
    404 error page: the root never falls back to [index.htm] or to a
    directory listing. *)
Theorem spa_rewrite_without_index fs req :
  command req = "GET" ->
  pr_path (urlparse (request_target req)) = "/" \/
  (str_in "." (basename (pr_path (urlparse (request_target req)))) = false /\
   os_path.exists_ fs (translate_path (pr_path (urlparse (request_target req))))
   = false) ->
  os_path.exists_ fs (os_path_join directory "index.html") = false ->
  let self := SPAHandler.handle fs req in
  path self = "/index.html" /\
  status (wfile self) = Some 404 /\
  body (wfile self)
  = error_message_format 404 "File not found" (snd (error_texts 404)).
Proof.
  intros Hc Hroute Hidx. apply exists_false in Hidx. cbv zeta.
  unfold SPAHandler.handle, BaseHTTPRequestHandler.dispatch,
    SPAHandler.methods.
  rewrite Hc. cbn [String.eqb Ascii.eqb Bool.eqb].
  rewrite do_GET_route_run. cbn [new_handler path _headers_buffer wfile stdout].
  assert (Hs : SPAHandler.served_path (request_target req)
                 (SPAHandler.route fs (request_target req)) = "/index.html").
  { unfold SPAHandler.route. destruct Hroute as [->|[Hdot Hmiss]]; [reflexivity|].
    rewrite Hdot, Hmiss. now destruct (String.eqb _ "/"). }
  rewrite Hs. unfold SPAHandler.super_do_GET, SimpleHTTPRequestHandler.do_GET, bind.
  rewrite (send_head_missing SPAHandler.class fs req _ _ _ accepted_version_set
             (spa_log_prints req _) (spa_end_flushes _ accepted_version_set)
             (mkSelf "/index.html" [] [] []) eq_refl)
    by (cbn [path]; rewrite translate_path_index;
        first [assumption | apply path_error_index]).
  unfold ret, answer_state, error_payloads. rewrite Hc.
  cbn [snd wfile path app status header_blocks status_of
       String.eqb Ascii.eqb Bool.eqb negb].
  repeat split.
  change (BaseHTTPRequestHandler.has_body 404) with true. cbv iota.
  destruct (error_message_format _ _ _); cbn [body app]; now rewrite ?app_nil_r.
Qed.

(** X7: a GET that is not rewritten (a dot in the last segment, or an
    existing path) and resolves to a regular file is served unchanged: 200
    with the file's bytes, its length and the type guessed from the
    resolved name; 304 without a body when the request is conditional and
    the file is not newer. *)
Theorem spa_existing_file_served fs req data st_mtime :
  command req = "GET" ->
  pr_path (urlparse (request_target req)) <> "/" ->
  str_in "." (basename (pr_path (urlparse (request_target req)))) = true \/
  os_path.exists_ fs (translate_path (pr_path (urlparse (request_target req))))
  = true ->
  fs (translate_path (request_target req)) = Some (RegularFile data st_mtime) ->
  endswith (translate_path (request_target req)) "/" = false ->
  let self := SPAHandler.handle fs req in
  path self = request_target req /\
  if SimpleHTTPRequestHandler.not_modified req st_mtime
  then status (wfile self) = Some 304 /\ body (wfile self) = []
  else status (wfile self) = Some 200 /\ body (wfile self) = data /\
       exists lines,
         wfile self = [HeaderBlock lines; Payload data] /\
         has_header "Content-type"
           (mimetypes_guess_type (translate_path (request_target req))) lines /\
         has_header "Content-Length" (str (Z.of_nat (List.length data))) lines.
Proof.
  intros Hc Hroot Hkeep Hfs Hslash. cbv zeta.
  unfold SPAHandler.handle, BaseHTTPRequestHandler.dispatch,
    SPAHandler.methods.
  rewrite Hc. cbn [String.eqb Ascii.eqb Bool.eqb].
  rewrite do_GET_route_run. cbn [new_handler path _headers_buffer wfile stdout].
  assert (Hs : SPAHandler.served_path (request_target req)
                 (SPAHandler.route fs (request_target req)) = request_target req).
  { unfold SPAHandler.route. apply String.eqb_neq in Hroot. rewrite Hroot.
    destruct Hkeep as [->|Hex]; [reflexivity|].
    rewrite Hex. now destruct (str_in _ _). }
  rewrite Hs. unfold SPAHandler.super_do_GET.
  rewrite (do_GET_regular_file SPAHandler.class fs req _ _ _ accepted_version_set
             (spa_log_prints req _) (spa_end_flushes _ accepted_version_set)
             (mkSelf (request_target req) [] [] []) data st_mtime eq_refl Hfs Hslash).
  cbn [snd].
  destruct (SimpleHTTPRequestHandler.not_modified req st_mtime);
    unfold answer_state;
    cbn [wfile path app status header_blocks status_of body]; rewrite ?app_nil_r;
    repeat split.
  eexists. split; [reflexivity|]. unfold has_header. cbn. tauto.
Qed.

(** X8: the debug server sends a regular file with the content type its
    own [guess_type] gives for the resolved name, so with the explicit type
    for [.js], [.css], [.json] and [.svg], together with the file's length
    and bytes. *)
Theorem debug_file_content_type fs req data st_mtime :
  command req = "GET" ->
  fs (translate_path (request_target req)) = Some (RegularFile data st_mtime) ->
  endswith (translate_path (request_target req)) "/" = false ->
  SimpleHTTPRequestHandler.not_modified req st_mtime = false ->
  let self := DebugHTTPRequestHandler.handle fs req in
  status (wfile self) = Some 200 /\
  body (wfile self) = data /\
  exists lines,
    wfile self = [HeaderBlock lines; Payload data] /\
    has_header "Content-type"
      (DebugHTTPRequestHandler.guess_type (translate_path (request_target req)))
      lines /\
    has_header "Content-Length" (str (Z.of_nat (List.length data))) lines /\
    has_header "Cache-Control" "no-cache, no-store, must-revalidate" lines.
Proof.
  intros Hc Hfs Hslash Hnm. cbv zeta.
  unfold DebugHTTPRequestHandler.handle, BaseHTTPRequestHandler.dispatch,
    DebugHTTPRequestHandler.methods.
  rewrite Hc. cbn [String.eqb Ascii.eqb Bool.eqb].
  rewrite (do_GET_regular_file DebugHTTPRequestHandler.class fs req _ _ _
             accepted_version_set (debug_log_prints req _)
             (debug_end_flushes _ accepted_version_set) (new_handler req) data st_mtime
             eq_refl Hfs Hslash).
  cbn [snd].
  rewrite Hnm. unfold answer_state.
  cbn [wfile path new_handler app status header_blocks status_of body].
  rewrite app_nil_r. repeat split.
  eexists. split; [reflexivity|]. unfold has_header. cbn. tauto.
Qed.

(** X18: a name that [open] refuses is not answered at all.  When the
    resolved path of a GET or HEAD request does not exist and [open] raises
    [ValueError] for it, the debug server's handler raises that exception
    before it has written or logged anything, and so does the SPA server's
    for a HEAD request and for a GET request with a dot in the last
    segment. *)
Theorem refused_name_is_unanswered fs req :
  command req = "GET" \/ command req = "HEAD" ->
  fs (translate_path (request_target req)) = None ->
  path_error (translate_path (request_target req)) = true ->
  endswith (translate_path (request_target req)) "/" = false ->
  BaseHTTPRequestHandler.dispatch DebugHTTPRequestHandler.class req
    (DebugHTTPRequestHandler.methods fs req) (new_handler req) accepted_version
  = (Raised ValueError, new_handler req) /\
  (command req = "HEAD" \/
   str_in "." (basename (pr_path (urlparse (request_target req)))) = true ->
   BaseHTTPRequestHandler.dispatch SPAHandler.class req
     (SPAHandler.methods fs req) (new_handler req) accepted_version
   = (Raised ValueError, new_handler req)).
Proof.
  intros Hc Hfs Hbad Hslash.
  unfold BaseHTTPRequestHandler.dispatch, SPAHandler.methods,
    DebugHTTPRequestHandler.methods.
  assert (Hd : forall cls,
             SimpleHTTPRequestHandler.send_head cls fs req (new_handler req)
               accepted_version
             = (Raised ValueError, new_handler req))
    by (intros cls; now apply send_head_refused).
  split.
  - destruct Hc as [-> | ->]; cbn [String.eqb Ascii.eqb Bool.eqb];
      unfold SimpleHTTPRequestHandler.do_GET, SimpleHTTPRequestHandler.do_HEAD, bind;
      now rewrite Hd.
  - intros Hkeep. destruct Hc as [Hg|Hh].
    + destruct Hkeep as [Hh|Hdot]; [congruence|].
      rewrite Hg. cbn [String.eqb Ascii.eqb Bool.eqb].
      rewrite do_GET_route_run. unfold SPAHandler.route.
      cbn [new_handler path _headers_buffer wfile stdout]. rewrite Hdot.
      assert (Hs : SPAHandler.served_path (request_target req)
                     (if String.eqb (pr_path (urlparse (request_target req))) "/"
                      then SPAHandler.RootIndex else SPAHandler.StaticAsset)
                   = request_target req).
      { destruct (String.eqb_spec (pr_path (urlparse (request_target req))) "/")
          as [E|_]; [|reflexivity].
        rewrite E in Hdot. discriminate Hdot. }
      rewrite Hs.
      unfold SPAHandler.super_do_GET, SimpleHTTPRequestHandler.do_GET, bind.
      change (mkSelf (request_target req) [] [] []) with (new_handler req).
      now rewrite Hd.
    + rewrite Hh. cbn [String.eqb Ascii.eqb Bool.eqb].
      unfold SimpleHTTPRequestHandler.do_HEAD, bind. now rewrite Hd.
Qed.

End Exchanges.

(** ** Log colours and the status code *)

Lemma prefix_separator n : forall a c b,
  str_in (String c EmptyString) n = false ->
  String.prefix n (a ++ String c b) = String.prefix n a.
Proof.
  induction n as [|x n IH]; intros a c b Hc.
  - destruct a; reflexivity.
  - rewrite str_in_char_cons in Hc. apply orb_false_elim in Hc as [Hx Hn].
    destruct a as [|y a]; cbn [append String.prefix].
    + destruct (ascii_dec x c) as [->|_]; [|reflexivity].
      now rewrite Ascii.eqb_refl in Hx.
    + destruct (ascii_dec x y); [now apply IH | reflexivity].
Qed.

(** A needle cannot straddle a character it does not contain. *)
Lemma str_in_separator n a c b :
  n <> EmptyString -> str_in (String c EmptyString) n = false ->
  str_in n (a ++ String c b) = str_in n a || str_in n b.
Proof.
  intros Hn Hc. induction a as [|y a IH].
  - cbn [append str_in]. pose proof (prefix_separator n EmptyString c b Hc) as E.
    cbn [append] in E. rewrite E.
    destruct n as [|x n]; [contradiction|]. reflexivity.
  - cbn [append str_in].
    pose proof (prefix_separator n (String y a) c b Hc) as E.
    cbn [append] in E. rewrite E, IH.
    now destruct (String.prefix n (String y a)).
Qed.

Lemma str_in_request_log_message n req code :
  n <> EmptyString ->
  str_in (BaseHTTPRequestHandler.dquote) n = false ->
  str_in " " n = false ->
  str_in n "-" = false ->
  str_in n (request_log_message req code)
  = str_in n (requestline req) || str_in n (str code).
Proof.
  intros Hn Hq Hs Hd.
  unfold request_log_message, BaseHTTPRequestHandler.dquote in *.
  cbn [append Ascii.ascii_of_nat] in *.
  change (String (Ascii.ascii_of_nat 34)
            (requestline req
               ++ String (Ascii.ascii_of_nat 34) (String " " (str code ++ String " " "-"))))
    with (EmptyString
            ++ String (Ascii.ascii_of_nat 34)
                 (requestline req
                    ++ String (Ascii.ascii_of_nat 34)
                         (EmptyString ++ String " " (str code ++ String " " "-")))).
  rewrite (str_in_separator n EmptyString _ _ Hn Hq).
  rewrite (str_in_separator n (requestline req) _ _ Hn Hq).
  rewrite (str_in_separator n EmptyString _ _ Hn Hs).
  rewrite (str_in_separator n (str code) _ _ Hn Hs).
  rewrite Hd. destruct n as [|x n]; [contradiction|].
  cbn [str_in String.prefix orb]. now rewrite orb_false_r.
Qed.

(** X9: when the request line contains none of the digit groups 200, 404
    and 304, the colour of the request-log line is decided by the status
    code alone: green for 200, red for 404, yellow for 304, and blue for a
    status whose digits contain none of the three groups, such as 301 or
    501. *)
Theorem log_color_follows_status req :
  str_in "200" (requestline req) = false ->
  str_in "404" (requestline req) = false ->
  str_in "304" (requestline req) = false ->
  (forall code,
     DebugHTTPRequestHandler.log_color (request_log_message req code)
     = DebugHTTPRequestHandler.log_color (str code)) /\
  DebugHTTPRequestHandler.log_color (request_log_message req 200)
  = DebugHTTPRequestHandler.green /\
  DebugHTTPRequestHandler.log_color (request_log_message req 404)
  = DebugHTTPRequestHandler.red /\
  DebugHTTPRequestHandler.log_color (request_log_message req 304)
  = DebugHTTPRequestHandler.yellow /\
  DebugHTTPRequestHandler.log_color (request_log_message req 301)
  = DebugHTTPRequestHandler.blue /\
  DebugHTTPRequestHandler.log_color (request_log_message req 501)
  = DebugHTTPRequestHandler.blue.
Proof.
  intros H2 H4 H3.
  assert (E : forall code,
            DebugHTTPRequestHandler.log_color (request_log_message req code)
            = DebugHTTPRequestHandler.log_color (str code)).
  { intros code. unfold DebugHTTPRequestHandler.log_color.
    rewrite !str_in_request_log_message by (reflexivity || discriminate).
    now rewrite H2, H4, H3. }
  split; [exact E|]. rewrite !E. repeat split; reflexivity.
Qed.

(** ** The port scan *)

Lemma find_available_port_loop_spec net n : forall start out,
  match debug_server.find_available_port_loop net start n out with
  | (Continue (Some q), out') =>
      out' = out /\ start <= q < start + Z.of_nat n /\ socket_bind net q = None /\
      forall q', start <= q' < q -> socket_bind net q' = Some OSError
  | (Continue None, out') =>
      out' = out /\
      forall q, start <= q < start + Z.of_nat n -> socket_bind net q = Some OSError
  | (Stop o, out') =>
      out' = out /\ o = Uncaught OverflowError /\
      exists q, start <= q < start + Z.of_nat n /\
        socket_bind net q = Some OverflowError /\
        forall q', start <= q' < q -> socket_bind net q' = Some OSError
  end.
Proof.
  induction n as [|n IH]; intros start out.
  - cbn. split; [reflexivity | lia].
  - cbn [debug_server.find_available_port_loop].
    unfold pbind, debug_server.is_port_available.
    destruct (socket_bind_cases net start) as [(E & _)|[(E & _)|(E & _)]];
      rewrite E; cbn [pret raise].
    + repeat split; try lia; auto.
    + specialize (IH (start + 1) out).
      destruct (debug_server.find_available_port_loop net (start + 1) n out)
        as [[[q|]|o] out'].
      * destruct IH as (-> & Hq & Hb & Hbefore). repeat split; try lia; auto.
        intros q' Hq'. destruct (Z.eq_dec q' start) as [->|]; [exact E|].
        apply Hbefore. lia.
      * destruct IH as (-> & Hall). split; [reflexivity|].
        intros q Hq. destruct (Z.eq_dec q start) as [->|]; [exact E|].
        apply Hall. lia.
      * destruct IH as (-> & -> & q & Hq & Ho & Hbefore).
        repeat split. exists q. repeat split; try lia; auto.
        intros q' Hq'. destruct (Z.eq_dec q' start) as [->|]; [exact E|].
        apply Hbefore. lia.
    + repeat split. exists start. repeat split; try lia; auto.
Qed.

(** X10: [find_available_port] returns the first port of
    [range(start_port, start_port + max_attempts)] that can be bound, all
    ports before it being occupied; [None] exactly when every port of the
    range is occupied (also when the range is empty); and it lets an
    [OverflowError] escape when the scan reaches a port outside 0..65535
    before finding one.  It prints nothing. *)
Theorem find_available_port_spec net start_port max_attempts out :
  match debug_server.find_available_port net start_port max_attempts out with
  | (Continue (Some q), out') =>
      out' = out /\ start_port <= q < start_port + max_attempts /\
      available net q /\
      forall q', start_port <= q' < q -> socket_bind net q' = Some OSError
  | (Continue None, out') =>
      out' = out /\
      forall q, start_port <= q < start_port + max_attempts ->
                socket_bind net q = Some OSError
  | (Stop o, out') =>
      out' = out /\ o = Uncaught OverflowError /\
      exists q, start_port <= q < start_port + max_attempts /\
        (q < 0 \/ 65535 < q) /\
        forall q', start_port <= q' < q -> socket_bind net q' = Some OSError
  end.
Proof.
  unfold debug_server.find_available_port, available.
  pose proof (find_available_port_loop_spec net (Z.to_nat max_attempts) start_port out)
    as Hspec.
  destruct (debug_server.find_available_port_loop _ _ _ _) as [[[q|]|o] out'].
  - destruct Hspec as (-> & Hq & Hb & Hbefore). repeat split; auto; lia.
  - destruct Hspec as (-> & Hall). split; [reflexivity|].
    intros q Hq. apply Hall. lia.
  - destruct Hspec as (-> & -> & q & Hq & Ho & Hbefore).
    repeat split. exists q. repeat split; auto; try lia.
    destruct (socket_bind_cases net q) as [(E & _)|[(E & _)|(_ & R)]];
      [congruence | congruence | exact R].
Qed.

(** ** Starting the servers *)

Section Startup.
Context `{PyLib}.

(** Takes the next test of [main] apart in [H]. *)
Ltac crack H :=
  repeat
    (match type of H with
     | context [match py_int ?a with _ => _ end] => destruct (py_int a) eqn:?
     | context [os_path.exists_ ?f ?d] => destruct (os_path.exists_ f d) eqn:?
     | context [os_path.isdir ?f ?d] => destruct (os_path.isdir f d) eqn:?
     | context [debug_server.truthy ?r] => destruct (debug_server.truthy r) eqn:?
     | context [debug_server.find_available_port_loop ?n ?p ?k ?o] =>
         let Hs := fresh "Hscan" in
         pose proof (find_available_port_loop_spec n k p o) as Hs;
         destruct (debug_server.find_available_port_loop n p k o) as [[[?|]|?] ?];
         cbv beta iota in Hs
     | context [match socket_bind ?n ?p with _ => _ end] =>
         let E := fresh "E" in
         destruct (socket_bind n p) as [[| |]|] eqn:E
     end;
     cbn [pret pprint sys_exit raise serve_forever negb outcome printed] in H);
  try discriminate H.

(** X11: the debug server only ever serves through a socket bound to a
    port that can be bound and lies among the 100 ports from the requested
    one on (the first argument, 8080 without one); it listens on that port,
    or on the port the kernel chose if that port is 0; and it serves only
    from the directory asked for (the second argument, the current directory
    without one), which is a directory. *)
Theorem debug_serves_requested_range net fs argv q d :
  outcome (run (debug_server.main net fs argv)) = Serving q d ->
  exists p q',
    match argv with _ :: arg1 :: _ => py_int arg1 = Some p | _ => p = 8080 end /\
    p <= q' < p + 100 /\
    available net q' /\
    q = getsockname net q' /\
    d = match argv with _ :: _ :: arg2 :: _ => arg2 | _ => "." end /\
    os_path.isdir fs d = true.
Proof.
  intros Hout.
  unfold run, debug_server.main, pbind, debug_server.os_chdir,
    debug_server.is_port_available, debug_server.find_available_port in Hout.
  destruct argv as [|prog [|arg1 [|arg2 rest]]];
    cbn [pret pprint sys_exit raise serve_forever negb outcome printed] in Hout;
    crack Hout.
  all: try match goal with
           | Hs : _ /\ _ = Uncaught OverflowError /\ _ |- _ =>
               destruct Hs as (_ & -> & _); discriminate Hout
           end.
  all: try congruence.
  all: injection Hout as <- <-.
  all: eexists; eexists; split; [first [eassumption | reflexivity]|].
  all: try match goal with
           | Hs : _ /\ _ /\ socket_bind _ _ = None /\ _ |- _ =>
               destruct Hs as (_ & Hr & _ & _)
           end.
  all: refine (conj _ (conj _ (conj eq_refl (conj eq_refl _))));
         [lia | unfold available; assumption | assumption].
Qed.

(** Takes the next test of [main] apart in the goal. *)
Ltac crack_goal :=
  repeat
    (match goal with
     | |- context [match py_int ?a with _ => _ end] => destruct (py_int a) eqn:?
     | |- context [os_path.exists_ ?f ?d] => destruct (os_path.exists_ f d) eqn:?
     | |- context [os_path.isdir ?f ?d] => destruct (os_path.isdir f d) eqn:?
     | |- context [debug_server.truthy ?r] => destruct (debug_server.truthy r) eqn:?
     | |- context [debug_server.find_available_port_loop ?n ?p ?k ?o] =>
         let Hs := fresh "Hscan" in
         pose proof (find_available_port_loop_spec n k p o) as Hs;
         destruct (debug_server.find_available_port_loop n p k o) as [[[?|]|?] ?];
         cbv beta iota in Hs
     | |- context [match socket_bind ?n ?p with _ => _ end] =>
         let E := fresh "E" in
         destruct (socket_bind n p) as [[| |]|] eqn:E
     end;
     cbn [pret pprint sys_exit raise serve_forever negb outcome printed]).

Ltac unfold_main :=
  unfold run, debug_server.main, spa_server.main, spa_server.run_server, pbind,
    debug_server.os_chdir, debug_server.is_port_available,
    debug_server.find_available_port.

(** X12: when the requested port can be bound, the debug server binds
    it and serves from the requested directory without scanning and without
    printing any warning; it listens on that port, or on the port the kernel
    chose if the requested port is 0. *)
Theorem debug_free_port_is_used net fs argv p :
  match argv with _ :: arg1 :: _ => py_int arg1 = Some p | _ => p = 8080 end ->
  os_path.isdir fs (match argv with _ :: _ :: d :: _ => d | _ => "." end) = true ->
  available net p ->
  run (debug_server.main net fs argv)
  = mkRun []
      (Serving (if p =? 0 then ephemeral_port net else p)
         (match argv with _ :: _ :: d :: _ => d | _ => "." end)).
Proof.
  unfold available. intros Hint Hdir Hfree. unfold_main.
  destruct argv as [|prog [|arg1 [|d rest]]];
    try rewrite Hint; try subst p; cbn [pret];
    try rewrite (isdir_exists _ _ Hdir); cbn [negb pret];
    rewrite Hfree; cbn [pret negb]; rewrite Hdir; cbn [pret]; rewrite Hfree;
    reflexivity.
Qed.

(** X13: a directory argument that does not exist ends the debug server
    with its message naming the directory and [sys.exit(1)], whatever the
    state of the network: no port is tried. *)
Theorem debug_missing_directory_is_fatal net fs prog arg1 arg2 rest p :
  py_int arg1 = Some p ->
  os_path.exists_ fs arg2 = false ->
  run (debug_server.main net fs (prog :: arg1 :: arg2 :: rest))
  = mkRun ["❌ 错误: 目录 '" ++ arg2 ++ "' 不存在"] (SysExit 1).
Proof.
  intros Hint Hmiss. unfold_main. rewrite Hint. cbn [pret]. rewrite Hmiss.
  reflexivity.
Qed.

(** X14: a numeric port outside 0..65535 is not reported as a usage error:
    in both programs the [OverflowError] of [bind] escapes, nothing is
    printed and the interpreter ends with the traceback and status 1. *)
Theorem port_out_of_range_is_uncaught net fs prog arg1 rest p :
  py_int arg1 = Some p ->
  p < 0 \/ 65535 < p ->
  match rest with d :: _ => os_path.exists_ fs d = true | [] => True end ->
  run (debug_server.main net fs (prog :: arg1 :: rest))
  = mkRun [] (Uncaught OverflowError) /\
  run (spa_server.main net (prog :: arg1 :: rest))
  = mkRun [] (Uncaught OverflowError).
Proof.
  intros Hint Hrange Hdir.
  assert (E : socket_bind net p = Some OverflowError).
  { destruct (socket_bind_cases net p) as [(_ & R & _)|[(_ & R & _)|(E & _)]];
      [lia | lia | exact E]. }
  unfold_main. rewrite Hint. cbn [pret].
  destruct rest as [|d rest]; [|rewrite Hdir]; cbn [negb pret]; rewrite E;
    split; reflexivity.
Qed.

(** X15: the SPA server has no port fallback.  It binds the requested port
    (the first argument, 8000 without one) when that can be bound, and
    listens on it, or on the port the kernel chose if the requested port is
    0; otherwise it ends with the uncaught exception of the bind, having
    printed nothing; it never binds another port. *)
Theorem spa_serves_requested_port_only net argv p :
  match argv with _ :: arg1 :: _ => py_int arg1 = Some p | _ => p = 8000 end ->
  let r := run (spa_server.main net argv) in
  let listening := if p =? 0 then ephemeral_port net else p in
  (available net p -> r = mkRun [] (Serving listening ".")) /\
  (~ available net p ->
   printed r = [] /\ exits_nonzero r /\ exists e, outcome r = Uncaught e) /\
  (forall q d, outcome r = Serving q d -> q = listening /\ available net p).
Proof.
  intros Hint. cbv zeta. unfold available, exits_nonzero. unfold_main.
  assert (Hparse :
    match argv with
    | _ :: arg1 :: _ =>
        match py_int arg1 with Some n => pret n | None => raise ValueError end
    | _ => pret 8000
    end [] = (Continue p, [])).
  { destruct argv as [|prog [|arg1 rest]];
      try rewrite Hint; try subst p; reflexivity. }
  rewrite Hparse. destruct (socket_bind net p) as [e|] eqn:E; cbn [outcome printed].
  - split; [discriminate|]. split.
    + intros _. split; [reflexivity|]. split; [|now exists e].
      exists 1. split; [reflexivity | lia].
    + intros q d Hs. discriminate Hs.
  - split; [reflexivity|]. split; [congruence|].
    intros q d [= <- <-]. now split.
Qed.

(** X16: the directory check is [os.path.exists], not [isdir].  An argument
    that exists without being a directory passes it, and the server then
    never serves: with a free port the [OSError] of [os.chdir] escapes at
    once, and in every case the process ends with a nonzero status. *)
Theorem debug_directory_that_is_a_file net fs prog arg1 arg2 rest p :
  py_int arg1 = Some p ->
  os_path.exists_ fs arg2 = true ->
  os_path.isdir fs arg2 = false ->
  let r := run (debug_server.main net fs (prog :: arg1 :: arg2 :: rest)) in
  exits_nonzero r /\
  (available net p -> r = mkRun [] (Uncaught OSError)).
Proof.
  intros Hint Hex Hdir. cbv zeta. unfold available, exits_nonzero. unfold_main.
  rewrite Hint. cbn [pret]. rewrite Hex. cbn [negb pret].
  split.
  - crack_goal;
      cbn [pret pprint sys_exit raise serve_forever negb outcome printed exit_status];
      first
        [ congruence
        | exists 1; split; [reflexivity | lia]
        | destruct Hscan as (_ & -> & _); exists 1; split; [reflexivity | lia] ].
  - intros Hfree. rewrite Hfree. cbn [pret negb]. rewrite Hdir. reflexivity.
Qed.

End Startup.

(** ** The request version *)

Section RequestVersion.
Context `{PyLib}.

Lemma header_blocks_app w1 w2 :
  header_blocks (w1 ++ w2) = (header_blocks w1 ++ header_blocks w2)%list.
Proof.
  induction w1 as [|[l|d] w1 IH]; cbn; [reflexivity | now rewrite IH | exact IH].
Qed.

Lemma bare_same_wfile {A} (m : M A) :
  (forall s, wfile (snd (m s "HTTP/0.9")) = wfile s) -> bare m.
Proof. intros E s. exists []. now rewrite E, app_nil_r. Qed.

Lemma bare_ret {A} (a : A) : bare (ret a).
Proof. now apply bare_same_wfile. Qed.

Lemma bare_throw {A} e : bare (@throw A e).
Proof. now apply bare_same_wfile. Qed.

Lemma bare_bind {A B} (m : M A) (k : A -> M B) :
  bare m -> (forall a, bare (k a)) -> bare (bind m k).
Proof.
  intros Hm Hk s. unfold bind. destruct (Hm s) as (a1 & E1 & N1).
  destruct (m s "HTTP/0.9") as [[a|e] s1]; cbn [snd] in *; [|eauto].
  destruct (Hk a s1) as (a2 & E2 & N2).
  exists (a1 ++ a2)%list. rewrite E2, E1, app_assoc. split; [reflexivity|].
  now rewrite header_blocks_app, N1, N2.
Qed.

Lemma bare_get_path : bare get_path.
Proof. now apply bare_same_wfile. Qed.

Lemma bare_set_path p : bare (set_path p).
Proof. now apply bare_same_wfile. Qed.

Lemma bare_print l : bare (print l).
Proof. now apply bare_same_wfile. Qed.

Lemma bare_payload d : bare (wfile_write (Payload d)).
Proof. intros s. exists [Payload d]. now split. Qed.

Lemma bare_send_header k x : bare (BaseHTTPRequestHandler.send_header k x).
Proof. now apply bare_same_wfile. Qed.

Lemma bare_send_response_only code message :
  bare (BaseHTTPRequestHandler.send_response_only code message).
Proof. now apply bare_same_wfile. Qed.

Lemma bare_end_headers : bare BaseHTTPRequestHandler.end_headers.
Proof. now apply bare_same_wfile. Qed.

Lemma blind_ret {A} (a : A) : version_blind (ret a).
Proof. now intros s v v'. Qed.

Lemma blind_throw {A} e : version_blind (@throw A e).
Proof. now intros s v v'. Qed.

Lemma blind_bind {A B} (m : M A) (k : A -> M B) :
  version_blind m -> (forall a, version_blind (k a)) -> version_blind (bind m k).
Proof.
  intros Hm Hk s v v' Hv Hv'. unfold bind. rewrite (Hm s v v' Hv Hv').
  destruct (m s v') as [[a|e] s1]; [now apply Hk | reflexivity].
Qed.

Lemma blind_get_path : version_blind get_path.
Proof. now intros s v v'. Qed.

Lemma blind_set_path p : version_blind (set_path p).
Proof. now intros s v v'. Qed.

Lemma blind_print l : version_blind (print l).
Proof. now intros s v v'. Qed.

Lemma blind_wfile_write w : version_blind (wfile_write w).
Proof. now intros s v v'. Qed.

Lemma blind_send_header k x : version_blind (BaseHTTPRequestHandler.send_header k x).
Proof. intros s v v' Hv Hv'. now rewrite !send_header_run. Qed.

Lemma blind_send_response_only code message :
  version_blind (BaseHTTPRequestHandler.send_response_only code message).
Proof. intros s v v' Hv Hv'. now rewrite !send_response_only_run. Qed.

Lemma blind_end_headers : version_blind BaseHTTPRequestHandler.end_headers.
Proof. intros s v v' Hv Hv'. now rewrite !end_headers_run. Qed.

Create HintDb bare_inv.
#[local] Hint Resolve bare_ret bare_throw bare_get_path bare_set_path bare_print
  bare_payload bare_send_header bare_send_response_only bare_end_headers
  : bare_inv.

Create HintDb blind_inv.
#[local] Hint Resolve blind_ret blind_throw blind_get_path blind_set_path
  blind_print blind_wfile_write blind_send_header blind_send_response_only
  blind_end_headers : blind_inv.

(** Decomposes handler code along its binds and tests. *)
Ltac bare_steps :=
  repeat first
    [ solve [auto with bare_inv]
    | apply bare_bind; [|intros]
    | match goal with
      | |- bare (match ?x with _ => _ end) => destruct x
      | |- bare (let '(_, _) := ?x in _) => destruct x
      end ].

Ltac blind_steps :=
  repeat first
    [ solve [auto with blind_inv]
    | apply blind_bind; [|intros]
    | match goal with
      | |- version_blind (match ?x with _ => _ end) => destruct x
      | |- version_blind (let '(_, _) := ?x in _) => destruct x
      end ].

(** Both properties hold of the inherited methods of any class whose
    [log_message] and [end_headers] have them. *)
Section Inherited.
Variable cls : HandlerClass.
Variable fs : FileSystem.
Variable req : Request.
Hypothesis log_bare : forall r msg, bare (self_log_message cls r msg).
Hypothesis end_bare : bare (self_end_headers cls).
Hypothesis log_blind : forall r msg, version_blind (self_log_message cls r msg).
Hypothesis end_blind : version_blind (self_end_headers cls).

#[local] Hint Resolve log_bare end_bare : bare_inv.
#[local] Hint Resolve log_blind end_blind : blind_inv.

Lemma bare_send_response code msg :
  bare (BaseHTTPRequestHandler.send_response cls req code msg).
Proof.
  unfold BaseHTTPRequestHandler.send_response, BaseHTTPRequestHandler.log_request.
  bare_steps.
Qed.

Lemma blind_send_response code msg :
  version_blind (BaseHTTPRequestHandler.send_response cls req code msg).
Proof.
  unfold BaseHTTPRequestHandler.send_response, BaseHTTPRequestHandler.log_request.
  blind_steps.
Qed.

#[local] Hint Resolve bare_send_response : bare_inv.
#[local] Hint Resolve blind_send_response : blind_inv.

Lemma bare_send_error code msg explain :
  bare (BaseHTTPRequestHandler.send_error cls req code msg explain).
Proof.
  unfold BaseHTTPRequestHandler.send_error, BaseHTTPRequestHandler.log_error_code.
  bare_steps.
Qed.

Lemma blind_send_error code msg explain :
  version_blind (BaseHTTPRequestHandler.send_error cls req code msg explain).
Proof.
  unfold BaseHTTPRequestHandler.send_error, BaseHTTPRequestHandler.log_error_code.
  blind_steps.
Qed.

#[local] Hint Resolve bare_send_error : bare_inv.
#[local] Hint Resolve blind_send_error : blind_inv.

Lemma bare_send_head : bare (SimpleHTTPRequestHandler.send_head cls fs req).
Proof.
  unfold SimpleHTTPRequestHandler.send_head, SimpleHTTPRequestHandler.send_head_file,
    SimpleHTTPRequestHandler.list_directory.
  bare_steps.
Qed.

Lemma blind_send_head : version_blind (SimpleHTTPRequestHandler.send_head cls fs req).
Proof.
  unfold SimpleHTTPRequestHandler.send_head, SimpleHTTPRequestHandler.send_head_file,
    SimpleHTTPRequestHandler.list_directory.
  blind_steps.
Qed.

#[local] Hint Resolve bare_send_head : bare_inv.
#[local] Hint Resolve blind_send_head : blind_inv.

Lemma bare_do_GET : bare (SimpleHTTPRequestHandler.do_GET cls fs req).
Proof. unfold SimpleHTTPRequestHandler.do_GET. bare_steps. Qed.

Lemma blind_do_GET : version_blind (SimpleHTTPRequestHandler.do_GET cls fs req).
Proof. unfold SimpleHTTPRequestHandler.do_GET. blind_steps. Qed.

Lemma bare_do_HEAD : bare (SimpleHTTPRequestHandler.do_HEAD cls fs req).
Proof. unfold SimpleHTTPRequestHandler.do_HEAD. bare_steps. Qed.

Lemma blind_do_HEAD : version_blind (SimpleHTTPRequestHandler.do_HEAD cls fs req).
Proof. unfold SimpleHTTPRequestHandler.do_HEAD. blind_steps. Qed.

End Inherited.

Lemma spa_end_bare : bare (self_end_headers SPAHandler.class).
Proof. cbn [self_end_headers SPAHandler.class]. unfold SPAHandler.end_headers. bare_steps. Qed.

Lemma spa_end_blind : version_blind (self_end_headers SPAHandler.class).
Proof. cbn [self_end_headers SPAHandler.class]. unfold SPAHandler.end_headers. blind_steps. Qed.

Lemma debug_end_bare : bare (self_end_headers DebugHTTPRequestHandler.class).
Proof.
  cbn [self_end_headers DebugHTTPRequestHandler.class].
  unfold DebugHTTPRequestHandler.end_headers. bare_steps.
Qed.

Lemma debug_end_blind : version_blind (self_end_headers DebugHTTPRequestHandler.class).
Proof.
  cbn [self_end_headers DebugHTTPRequestHandler.class].
  unfold DebugHTTPRequestHandler.end_headers. blind_steps.
Qed.

Lemma spa_log_bare req msg : bare (self_log_message SPAHandler.class req msg).
Proof. apply bare_print. Qed.

Lemma spa_log_blind req msg : version_blind (self_log_message SPAHandler.class req msg).
Proof. apply blind_print. Qed.

Lemma debug_log_bare req msg :
  bare (self_log_message DebugHTTPRequestHandler.class req msg).
Proof. apply bare_print. Qed.

Lemma debug_log_blind req msg :
  version_blind (self_log_message DebugHTTPRequestHandler.class req msg).
Proof. apply blind_print. Qed.

Lemma spa_dispatch_bare fs req :
  bare (BaseHTTPRequestHandler.dispatch SPAHandler.class req (SPAHandler.methods fs req)).
Proof.
  unfold BaseHTTPRequestHandler.dispatch, SPAHandler.methods.
  destruct (String.eqb (command req) "GET").
  - intros s. rewrite do_GET_route_run.
    destruct (bare_do_GET SPAHandler.class fs req spa_log_bare spa_end_bare
                (mkSelf (SPAHandler.served_path (path s) (SPAHandler.route fs (path s)))
                   (_headers_buffer s) (wfile s) (stdout s))) as (added & E & N).
    exists added. now split.
  - destruct (String.eqb (command req) "HEAD").
    + apply bare_do_HEAD; [apply spa_log_bare | apply spa_end_bare].
    + apply bare_send_error; [apply spa_log_bare | apply spa_end_bare].
Qed.

Lemma spa_dispatch_blind fs req :
  version_blind
    (BaseHTTPRequestHandler.dispatch SPAHandler.class req (SPAHandler.methods fs req)).
Proof.
  unfold BaseHTTPRequestHandler.dispatch, SPAHandler.methods.
  destruct (String.eqb (command req) "GET").
  - intros s v v' Hv Hv'. rewrite !do_GET_route_run.
    now apply blind_do_GET; [apply spa_log_blind | apply spa_end_blind | |].
  - destruct (String.eqb (command req) "HEAD").
    + apply blind_do_HEAD; [apply spa_log_blind | apply spa_end_blind].
    + apply blind_send_error; [apply spa_log_blind | apply spa_end_blind].
Qed.

Lemma debug_dispatch_bare fs req :
  bare (BaseHTTPRequestHandler.dispatch DebugHTTPRequestHandler.class req
          (DebugHTTPRequestHandler.methods fs req)).
Proof.
  unfold BaseHTTPRequestHandler.dispatch, DebugHTTPRequestHandler.methods.
  destruct (String.eqb (command req) "GET");
    [apply bare_do_GET; [apply debug_log_bare | apply debug_end_bare]|].
  destruct (String.eqb (command req) "HEAD");
    [apply bare_do_HEAD; [apply debug_log_bare | apply debug_end_bare]|].
  destruct (String.eqb (command req) "OPTIONS");
    [|apply bare_send_error; [apply debug_log_bare | apply debug_end_bare]].
  unfold DebugHTTPRequestHandler.do_OPTIONS. apply bare_bind.
  - apply bare_send_response. apply debug_log_bare.
  - intros _. apply debug_end_bare.
Qed.

Lemma debug_dispatch_blind fs req :
  version_blind
    (BaseHTTPRequestHandler.dispatch DebugHTTPRequestHandler.class req
       (DebugHTTPRequestHandler.methods fs req)).
Proof.
  unfold BaseHTTPRequestHandler.dispatch, DebugHTTPRequestHandler.methods.
  destruct (String.eqb (command req) "GET");
    [apply blind_do_GET; [apply debug_log_blind | apply debug_end_blind]|].
  destruct (String.eqb (command req) "HEAD");
    [apply blind_do_HEAD; [apply debug_log_blind | apply debug_end_blind]|].
  destruct (String.eqb (command req) "OPTIONS");
    [|apply blind_send_error; [apply debug_log_blind | apply debug_end_blind]].
  unfold DebugHTTPRequestHandler.do_OPTIONS. apply blind_bind.
  - apply blind_send_response. apply debug_log_blind.
  - intros _. apply debug_end_blind.
Qed.

(** What [handle_one_request] writes under [HTTP/0.9], for a class whose
    methods write no header block then. *)
Lemma handle_one_request_bare cls methods conn :
  (forall req, bare (BaseHTTPRequestHandler.dispatch cls req (methods req))) ->
  (forall req code msg explain,
     bare (BaseHTTPRequestHandler.send_error cls req code msg explain)) ->
  BaseHTTPRequestHandler.request_version_of conn = "HTTP/0.9" ->
  header_blocks (wfile (snd (BaseHTTPRequestHandler.handle_one_request cls methods conn)))
  = [].
Proof.
  intros Hd He.
  unfold BaseHTTPRequestHandler.request_version_of,
    BaseHTTPRequestHandler.handle_one_request.
  destruct (65536 <? _); [discriminate|].
  destruct (raw_requestline conn) as [|c line]; [reflexivity|].
  destruct (BaseHTTPRequestHandler.parse_request conn)
    as [v req|v req code message explain|]; [| |reflexivity]; intros ->.
  - destruct (Hd req (new_handler req)) as (added & -> & N). exact N.
  - destruct (He req code (Some message) explain (new_handler req)) as (added & -> & N).
    exact N.
Qed.

(** X19: under [HTTP/0.9] a response has no status line and no headers.
    Whatever either server writes while the request version is [HTTP/0.9]
    (a request line of one or two words, or one whose version was refused
    with 400 or 505, or the literal version [HTTP/0.9]) contains no header
    block: only body data. *)
Theorem http09_response_is_body_only fs conn :
  BaseHTTPRequestHandler.request_version_of conn = "HTTP/0.9" ->
  header_blocks (wfile (SPAHandler.handle_one_request fs conn)) = [] /\
  header_blocks (wfile (DebugHTTPRequestHandler.handle_one_request fs conn)) = [].
Proof.
  intros Hv. split.
  - apply handle_one_request_bare; [apply spa_dispatch_bare| |exact Hv].
    intros req code msg explain.
    apply bare_send_error; [apply spa_log_bare | apply spa_end_bare].
  - apply handle_one_request_bare; [apply debug_dispatch_bare| |exact Hv].
    intros req code msg explain.
    apply bare_send_error; [apply debug_log_bare | apply debug_end_bare].
Qed.

(** X20: an accepted request on the wire is handled as [handle] says.  When
    the request line is not too long and [parse_request] accepts it with a
    version other than [HTTP/0.9], both servers leave the handler exactly as
    they do for the accepted request, whichever version that is. *)
Theorem accepted_request_is_handled fs conn v req :
  Z.of_nat (String.length (raw_requestline conn)) <= 65536 ->
  BaseHTTPRequestHandler.parse_request conn = BaseHTTPRequestHandler.Accept v req ->
  v <> "HTTP/0.9" ->
  SPAHandler.handle_one_request fs conn = SPAHandler.handle fs req /\
  DebugHTTPRequestHandler.handle_one_request fs conn
  = DebugHTTPRequestHandler.handle fs req.
Proof.
  intros Hlen Hparse Hv. apply String.eqb_neq in Hv.
  assert (Hraw : raw_requestline conn <> EmptyString).
  { intros E. unfold BaseHTTPRequestHandler.parse_request in Hparse.
    rewrite E in Hparse. discriminate Hparse. }
  unfold SPAHandler.handle_one_request, DebugHTTPRequestHandler.handle_one_request,
    SPAHandler.handle, DebugHTTPRequestHandler.handle,
    BaseHTTPRequestHandler.handle_one_request.
  apply Z.ltb_ge in Hlen. rewrite Hlen, Hparse.
  destruct (raw_requestline conn) as [|c line]; [contradiction|].
  split.
  - now rewrite (spa_dispatch_blind fs req (new_handler req) v accepted_version Hv).
  - now rewrite (debug_dispatch_blind fs req (new_handler req) v accepted_version Hv).
Qed.

End RequestVersion.

(** ** The properties on the concrete site *)

(** C2 (the code departs from it): [/a%00.png] has a dot in its last
    segment and does not exist, so the claim promises a not-found response.
    The resolved name has an embedded null character: [os.path.exists]
    reports it missing, but [open] raises [ValueError], which [send_head]
    does not catch with its [except OSError].  The handler raises, and no
    response is written at all. *)
Theorem spa_missing_asset_null_byte :
  let req := Model.get "/a%00.png" in
  let self := @SPAHandler.handle Model.lib Model.site req in
  (command req = "GET" /\
   str_in "." (basename (pr_path (Model.urlparse (request_target req)))) = true /\
   os_path.exists_ Model.site (Model.translate_path (request_target req)) = false) /\
  @BaseHTTPRequestHandler.dispatch Model.lib (@SPAHandler.class Model.lib) req
    (@SPAHandler.methods Model.lib Model.site req) (new_handler req) accepted_version
  = (Raised ValueError, new_handler req) /\
  wfile self = [] /\
  status (wfile self) <> Some 404 /\
  wfile (@SPAHandler.handle_one_request Model.lib Model.site
           (Model.wire "GET /a%00.png HTTP/1.1")) = [].
Proof. cbv zeta. repeat split; try reflexivity. discriminate. Qed.

(** C4 as first stated fails under [HTTP/0.9]: the answer to the request
    line [GET /index.html] is the document alone, and the answer to
    [GET / HTTP/2.0] is the 505 error page alone; neither has a header block,
    so neither carries the CORS header. *)
Lemma http09_response_has_no_header :
  let s := wfile (@SPAHandler.handle_one_request Model.lib Model.site
                    (Model.wire "GET /index.html")) in
  let d := wfile (@DebugHTTPRequestHandler.handle_one_request Model.lib Model.site
                    (Model.wire "GET / HTTP/2.0")) in
  s = [Payload Model.index_html] /\
  d = [Payload (Model.error_message_format 505 "Invalid HTTP version (2.0)"
                  "Cannot fulfill request")] /\
  ~ (exists lines, In (HeaderBlock lines) s /\ cors lines) /\
  ~ (exists lines, In (HeaderBlock lines) d /\ cors lines).
Proof.
  cbv zeta. split; [reflexivity|]. split; [reflexivity|].
  split; intros (lines & [E|[]] & _); discriminate E.
Qed.

(** A request for the stylesheet under HTTP/1.1, to both servers. *)
Lemma every_response_allows_any_origin_witness :
  let conn := Model.wire "GET /main.css HTTP/1.1" in
  let s := wfile (@SPAHandler.handle_one_request Model.lib Model.site conn) in
  let d := wfile (@DebugHTTPRequestHandler.handle_one_request Model.lib Model.site conn) in
  @BaseHTTPRequestHandler.request_version_of Model.lib conn <> "HTTP/0.9" /\
  (s = [] \/ cors_response s) /\ (d = [] \/ cors_response d).
Proof.
  cbv zeta.
  assert (Hv : @BaseHTTPRequestHandler.request_version_of Model.lib
                 (Model.wire "GET /main.css HTTP/1.1") <> "HTTP/0.9")
    by (vm_compute; discriminate).
  split; [exact Hv|].
  exact (@every_response_allows_any_origin Model.lib Model.site
           (Model.wire "GET /main.css HTTP/1.1") Hv).
Defined.

(** [/logo.png] is absent from the concrete site: 404, no rewrite. *)
Lemma spa_missing_asset_not_found_witness :
  let req := Model.get "/logo.png" in
  (command req = "GET" /\
   str_in "." (basename (pr_path (Model.urlparse (request_target req)))) = true /\
   os_path.exists_ Model.site (Model.translate_path (request_target req)) = false /\
   str_in nul (Model.translate_path (request_target req)) = false) /\
  let self := @SPAHandler.handle Model.lib Model.site req in
  path self = "/logo.png" /\
  status (wfile self) = Some 404 /\
  body (wfile self)
  = Model.error_message_format 404 "File not found" "Nothing matches the given URI".
Proof.
  cbv zeta. split.
  - repeat split; reflexivity.
  - apply (@spa_missing_asset_not_found Model.lib Model.site (Model.get "/logo.png"));
      reflexivity.
Defined.

(** HEAD for the stylesheet, from both servers. *)
Lemma head_request_has_no_body_witness :
  let req := Model.head "/main.css" in
  let s := wfile (@SPAHandler.handle Model.lib Model.site req) in
  let d := wfile (@DebugHTTPRequestHandler.handle Model.lib Model.site req) in
  command req = "HEAD" /\
  (s = [] \/ exists lines, s = [HeaderBlock lines]) /\
  (d = [] \/ exists lines, d = [HeaderBlock lines]).
Proof.
  cbv zeta. split; [reflexivity|].
  exact (@head_request_has_no_body Model.lib Model.site (Model.head "/main.css")
           eq_refl).
Defined.

(** POST to both servers. *)
Lemma other_methods_not_implemented_witness :
  let req := Model.post "/api/items" in
  (command req <> "GET" /\ command req <> "HEAD" /\ command req <> "OPTIONS") /\
  status (wfile (@SPAHandler.handle Model.lib Model.site req)) = Some 501 /\
  status (wfile (@DebugHTTPRequestHandler.handle Model.lib Model.site req)) = Some 501.
Proof.
  cbv zeta.
  assert (Hg : command (Model.post "/api/items") <> "GET") by discriminate.
  assert (Hh : command (Model.post "/api/items") <> "HEAD") by discriminate.
  assert (Ho : command (Model.post "/api/items") <> "OPTIONS") by discriminate.
  destruct (@other_methods_not_implemented Model.lib Model.site
              (Model.post "/api/items") Hg Hh) as [(S & _) D].
  destruct (D Ho) as [D' _].
  split; [repeat split; assumption|]. split; assumption.
Defined.

(** HEAD for an SPA route. *)
Lemma spa_head_is_not_rewritten_witness :
  let req := Model.head "/app/settings" in
  (command req = "HEAD" /\
   os_path.exists_ Model.site (Model.translate_path (request_target req)) = false /\
   str_in nul (Model.translate_path (request_target req)) = false) /\
  let self := @SPAHandler.handle Model.lib Model.site req in
  path self = "/app/settings" /\
  status (wfile self) = Some 404 /\
  body (wfile self) = [].
Proof.
  cbv zeta. split; [repeat split; reflexivity|].
  exact (@spa_head_is_not_rewritten Model.lib Model.site (Model.head "/app/settings")
           eq_refl eq_refl eq_refl).
Defined.

(** The root of a directory without [index.html]. *)
Lemma spa_rewrite_without_index_witness :
  let req := Model.get "/" in
  (command req = "GET" /\
   pr_path (Model.urlparse (request_target req)) = "/" /\
   os_path.exists_ Model.bare_site (os_path_join Model.directory "index.html") = false) /\
  let self := @SPAHandler.handle Model.lib Model.bare_site req in
  path self = "/index.html" /\
  status (wfile self) = Some 404 /\
  body (wfile self)
  = Model.error_message_format 404 "File not found" "Nothing matches the given URI".
Proof.
  cbv zeta. split; [repeat split; reflexivity|].
  exact (@spa_rewrite_without_index Model.lib Model.bare_site (Model.get "/")
           eq_refl (or_introl eq_refl) eq_refl).
Defined.

(** The stylesheet from the SPA server. *)
Lemma spa_existing_file_served_witness :
  let req := Model.get "/main.css" in
  (command req = "GET" /\
   pr_path (Model.urlparse (request_target req)) <> "/" /\
   str_in "." (basename (pr_path (Model.urlparse (request_target req)))) = true /\
   Model.site (Model.translate_path (request_target req))
   = Some (RegularFile (list_byte_of_string "body{}") 1000) /\
   endswith (Model.translate_path (request_target req)) "/" = false) /\
  let self := @SPAHandler.handle Model.lib Model.site req in
  path self = "/main.css" /\
  status (wfile self) = Some 200 /\
  body (wfile self) = list_byte_of_string "body{}".
Proof.
  cbv zeta.
  assert (Hroot : pr_path (Model.urlparse (request_target (Model.get "/main.css")))
                  <> "/") by discriminate.
  split; [repeat split; try reflexivity; exact Hroot|].
  pose proof (@spa_existing_file_served Model.lib Model.site (Model.get "/main.css")
                (list_byte_of_string "body{}") 1000 eq_refl Hroot
                (or_introl eq_refl) eq_refl eq_refl) as T.
  cbv zeta in T.
  change (SimpleHTTPRequestHandler.not_modified (Model.get "/main.css") 1000)
    with false in T.
  destruct T as (P & S & B & _). repeat split; assumption.
Defined.

(** The stylesheet from the debug server. *)
Lemma debug_file_content_type_witness :
  let req := Model.get "/main.css" in
  (command req = "GET" /\
   Model.site (Model.translate_path (request_target req))
   = Some (RegularFile (list_byte_of_string "body{}") 1000) /\
   endswith (Model.translate_path (request_target req)) "/" = false /\
   SimpleHTTPRequestHandler.not_modified req 1000 = false) /\
  exists lines,
    wfile (@DebugHTTPRequestHandler.handle Model.lib Model.site req)
    = [HeaderBlock lines; Payload (list_byte_of_string "body{}")] /\
    has_header "Content-type" "text/css" lines.
Proof.
  cbv zeta. split; [repeat split; reflexivity|].
  destruct (@debug_file_content_type Model.lib Model.site (Model.get "/main.css")
              (list_byte_of_string "body{}") 1000 eq_refl eq_refl eq_refl eq_refl)
    as (_ & _ & lines & W & T & _).
  exists lines. split; assumption.
Defined.

(** [/a%00.png] from both servers. *)
Lemma refused_name_is_unanswered_witness :
  let req := Model.get "/a%00.png" in
  (command req = "GET" /\
   Model.site (Model.translate_path (request_target req)) = None /\
   str_in nul (Model.translate_path (request_target req)) = true /\
   endswith (Model.translate_path (request_target req)) "/" = false /\
   str_in "." (basename (pr_path (Model.urlparse (request_target req)))) = true) /\
  wfile (@DebugHTTPRequestHandler.handle Model.lib Model.site req) = [] /\
  wfile (@SPAHandler.handle Model.lib Model.site req) = [].
Proof.
  cbv zeta. split; [repeat split; reflexivity|].
  destruct (@refused_name_is_unanswered Model.lib Model.site (Model.get "/a%00.png")
              (or_introl eq_refl) eq_refl eq_refl eq_refl) as [D S].
  unfold DebugHTTPRequestHandler.handle, SPAHandler.handle.
  rewrite D, (S (or_intror eq_refl)). split; reflexivity.
Defined.

(** A request line without any of the digit groups. *)
Lemma log_color_follows_status_witness :
  let req := Model.get "/index.html" in
  (str_in "200" (requestline req) = false /\
   str_in "404" (requestline req) = false /\
   str_in "304" (requestline req) = false) /\
  DebugHTTPRequestHandler.log_color (request_log_message req 404)
  = DebugHTTPRequestHandler.red.
Proof.
  cbv zeta. split; [repeat split; reflexivity|].
  destruct (log_color_follows_status (Model.get "/index.html") eq_refl eq_refl eq_refl)
    as (_ & _ & R & _).
  exact R.
Defined.

(** The request line [GET /index.html] under HTTP/0.9, to both servers. *)
Lemma http09_response_is_body_only_witness :
  let conn := Model.wire "GET /index.html" in
  @BaseHTTPRequestHandler.request_version_of Model.lib conn = "HTTP/0.9" /\
  header_blocks (wfile (@SPAHandler.handle_one_request Model.lib Model.site conn)) = [] /\
  header_blocks (wfile (@DebugHTTPRequestHandler.handle_one_request Model.lib Model.site
                          conn)) = [].
Proof.
  cbv zeta. split; [reflexivity|].
  exact (@http09_response_is_body_only Model.lib Model.site
           (Model.wire "GET /index.html") eq_refl).
Defined.

(** The request line [GET /app/settings HTTP/1.0] on the wire. *)
Lemma accepted_request_is_handled_witness :
  let conn := Model.wire "GET /app/settings HTTP/1.0" in
  let req := mkRequest "GET" "/app/settings" "GET /app/settings HTTP/1.0"
               "127.0.0.1" None in
  (Z.of_nat (String.length (raw_requestline conn)) <= 65536 /\
   @BaseHTTPRequestHandler.parse_request Model.lib conn
   = BaseHTTPRequestHandler.Accept "HTTP/1.0" req /\
   "HTTP/1.0" <> "HTTP/0.9") /\
  @SPAHandler.handle_one_request Model.lib Model.site conn
  = @SPAHandler.handle Model.lib Model.site req /\
  @DebugHTTPRequestHandler.handle_one_request Model.lib Model.site conn
  = @DebugHTTPRequestHandler.handle Model.lib Model.site req.
Proof.
  cbv zeta.
  assert (Hlen : Z.of_nat (String.length
                   (raw_requestline (Model.wire "GET /app/settings HTTP/1.0")))
                 <= 65536) by (vm_compute; discriminate).
  assert (Hv : "HTTP/1.0" <> "HTTP/0.9") by discriminate.
  split; [repeat split; [exact Hlen | exact Hv]|].
  exact (@accepted_request_is_handled Model.lib Model.site
           (Model.wire "GET /app/settings HTTP/1.0") "HTTP/1.0" _ Hlen eq_refl Hv).
Defined.

Lemma debug_serves_requested_range_witness :
  let argv := ["debug_server.py"; "8080"] in
  outcome (run (@debug_server.main Model.lib busy_until_8083 Model.site argv))
  = Serving 8083 "." /\
  exists p q',
    Model.py_int "8080" = Some p /\ p <= q' < p + 100 /\
    available busy_until_8083 q' /\
    8083 = getsockname busy_until_8083 q' /\
    "." = "." /\ os_path.isdir Model.site "." = true.
Proof.
  cbv zeta. split; [reflexivity|].
  exact (@debug_serves_requested_range Model.lib busy_until_8083 Model.site
           ["debug_server.py"; "8080"] 8083 "." eq_refl).
Defined.

(** Asked for port 0, the debug server listens on the port the kernel
    chose. *)
Lemma debug_free_port_is_used_witness :
  let argv := ["debug_server.py"; "0"; "/srv/www"] in
  (Model.py_int "0" = Some 0 /\
   os_path.isdir Model.site "/srv/www" = true /\
   available busy_until_8083 0) /\
  run (@debug_server.main Model.lib busy_until_8083 Model.site argv)
  = mkRun [] (Serving 49152 "/srv/www").
Proof.
  cbv zeta. split; [repeat split; reflexivity|].
  exact (@debug_free_port_is_used Model.lib busy_until_8083 Model.site
           ["debug_server.py"; "0"; "/srv/www"] 0 eq_refl eq_refl eq_refl).
Defined.

Lemma debug_missing_directory_is_fatal_witness :
  (Model.py_int "9000" = Some 9000 /\ os_path.exists_ Model.site "./dist" = false) /\
  run (@debug_server.main Model.lib busy_until_8083 Model.site
         ["debug_server.py"; "9000"; "./dist"])
  = mkRun ["❌ 错误: 目录 '" ++ "./dist" ++ "' 不存在"] (SysExit 1).
Proof.
  split; [split; reflexivity|].
  exact (@debug_missing_directory_is_fatal Model.lib busy_until_8083 Model.site
           "debug_server.py" "9000" "./dist" [] 9000 eq_refl eq_refl).
Defined.

Lemma port_out_of_range_is_uncaught_witness :
  (Model.py_int "70000" = Some 70000 /\ (70000 < 0 \/ 65535 < 70000)) /\
  run (@debug_server.main Model.lib busy_until_8083 Model.site ["server.py"; "70000"])
  = mkRun [] (Uncaught OverflowError) /\
  run (@spa_server.main Model.lib busy_until_8083 ["server.py"; "70000"])
  = mkRun [] (Uncaught OverflowError).
Proof.
  assert (R : 70000 < 0 \/ 65535 < 70000) by (right; lia).
  split; [split; [reflexivity | exact R]|].
  exact (@port_out_of_range_is_uncaught Model.lib busy_until_8083 Model.site
           "server.py" "70000" [] 70000 eq_refl R I).
Defined.

Lemma spa_serves_requested_port_only_witness :
  let r := run (@spa_server.main Model.lib busy_until_8083 ["spa-server.py"; "8080"]) in
  (Model.py_int "8080" = Some 8080 /\ ~ available busy_until_8083 8080) /\
  printed r = [] /\ exits_nonzero r /\ exists e, outcome r = Uncaught e.
Proof.
  cbv zeta.
  assert (B : ~ available busy_until_8083 8080) by (unfold available; discriminate).
  split; [split; [reflexivity | exact B]|].
  destruct (@spa_serves_requested_port_only Model.lib busy_until_8083
              ["spa-server.py"; "8080"] 8080 eq_refl) as (_ & D & _).
  exact (D B).
Defined.

Lemma debug_directory_that_is_a_file_witness :
  let argv := ["debug_server.py"; "9000"; "/srv/www/index.html"] in
  let r := run (@debug_server.main Model.lib busy_until_8083 Model.site argv) in
  (Model.py_int "9000" = Some 9000 /\
   os_path.exists_ Model.site "/srv/www/index.html" = true /\
   os_path.isdir Model.site "/srv/www/index.html" = false /\
   available busy_until_8083 9000) /\
  exits_nonzero r /\ r = mkRun [] (Uncaught OSError).
Proof.
  cbv zeta. split; [repeat split; reflexivity|].
  destruct (@debug_directory_that_is_a_file Model.lib busy_until_8083 Model.site
              "debug_server.py" "9000" "/srv/www/index.html" [] 9000
              eq_refl eq_refl eq_refl) as [X F].
  split; [exact X | exact (F eq_refl)].
Defined.
